(** * Alberta Business Launchpad: cache keys, cache service, Calgary adapter,
      visibility transformers and route handlers.

    A shallow embedding of the server side of the repository:
    - [services/CacheService.ts]      (buildKey, get / set / invalidate, backends)
    - [adapters/CalgaryBusinessLicenseAdapter.ts] (retry, bounding box, radius, normalisation)
    - [transformers/publicBusinessTransformer.ts], [staffBusinessTransformer.ts]
    - [routes/public.routes.ts], [routes/staff.routes.ts]

    JavaScript numbers are IEEE-754 binary64 values (Rocq's primitive floats).
    JavaScript strings are rendered as [string]; one [ascii] stands for one
    UTF-16 code unit, so the model covers strings whose code units are below 256.
    Asynchronous functions are rendered in a state-and-exception monad: a
    rejected promise is a thrown value. *)

From Stdlib Require Import ZArith List Ascii String Floats Lia Bool Permutation.
From Stdlib Require Import HexadecimalString HexadecimalN DecimalString Uint63.
From stdpp Require Import base list strings sorting gmap.

Local Open Scope string_scope.
Local Open Scope Z_scope.

(* ===================================================================== *)
(** * The JavaScript side: values, engine primitives, JSON                *)
(* ===================================================================== *)

Set Warnings "-register-all,-inexact-float".

(** JSON-like values: what [unknown] holds in the parameter maps, the raw
    payloads and the cached values. The property list of an object is in
    insertion order. *)
Inductive JsValue : Type :=
| JUndefined
| JNull
| JBool (b : bool)
| JNum (n : float)
| JStr (s : string)
| JArr (items : list JsValue)
| JObj (props : list (string * JsValue)).

Definition JsObject : Type := list (string * JsValue).

Section JsValueInduction.
Variable P : JsValue -> Prop.
Hypothesis Hundefined : P JUndefined.
Hypothesis Hnull : P JNull.
Hypothesis Hbool : forall b, P (JBool b).
Hypothesis Hnum : forall n, P (JNum n).
Hypothesis Hstr : forall s, P (JStr s).
Hypothesis Harr : forall items, Forall P items -> P (JArr items).
Hypothesis Hobj : forall props, Forall (fun kv => P (snd kv)) props -> P (JObj props).

(** Induction on values, through the arrays and the property lists. *)
Fixpoint JsValue_nested_ind (v : JsValue) : P v :=
  match v with
  | JUndefined => Hundefined
  | JNull => Hnull
  | JBool b => Hbool b
  | JNum n => Hnum n
  | JStr s => Hstr s
  | JArr items =>
      Harr items
        ((fix go (l : list JsValue) : Forall P l :=
            match l with
            | [] => @List.Forall_nil _ P
            | x :: l' => @List.Forall_cons _ P x l' (JsValue_nested_ind x) (go l')
            end) items)
  | JObj props =>
      Hobj props
        ((fix go (l : list (string * JsValue)) : Forall (fun kv => P (snd kv)) l :=
            match l with
            | [] => @List.Forall_nil _ (fun kv => P (snd kv))
            | kv :: l' => @List.Forall_cons _ (fun kv => P (snd kv)) kv l' (JsValue_nested_ind (snd kv)) (go l')
            end) props)
  end.
End JsValueInduction.

(** What the engine supplies and the repository does not define: the
    [Math] functions the specification of the language leaves
    implementation-approximated, [Number::toString], and the stream of values
    [crypto.randomUUID()] returns during one process (the n-th call returns
    [crypto_randomUUID n]), the stream of numbers [Math.random()] returns
    (each at least 0 and below 1), and the JSON parser. *)
Class JsEngine := {
  Math_sin : float -> float;
  Math_cos : float -> float;
  Math_atan2 : float -> float -> float;
  Math_random : nat -> float;
  (** The exponentiation operator [x ** y]. *)
  Number_exponentiate : float -> float -> float;
  Number_toString : float -> string;
  crypto_randomUUID : nat -> string;
  (** [JSON.parse]: the parsed value, or [None] when it throws a SyntaxError. *)
  JSON_parse : string -> option JsValue
}.

(** [Math.PI] is the binary64 number nearest to pi; [Math.sqrt] is the
    correctly rounded square root. *)
Definition Math_PI : float := 0x1.921fb54442d18p+1%float.
Definition Math_sqrt (x : float) : float := PrimFloat.sqrt x.

(** [Math.max(x, y)]: NaN when an argument is NaN, and +0 is above -0. *)
Definition Math_max (x y : float) : float :=
  if PrimFloat.is_nan x || PrimFloat.is_nan y then PrimFloat.nan
  else if (x <? y)%float then y
  else if (y <? x)%float then x
  else if PrimFloat.is_zero x then (x + y)%float
  else x.

(** Property lookup [o\[k\]]; the first binding of a key is the property. *)
Fixpoint getProp (k : string) (o : JsObject) : option JsValue :=
  match o with
  | [] => None
  | (k', v) :: o' => if String.eqb k k' then Some v else getProp k o'
  end.

(** [Object.keys(o)]. *)
Definition Object_keys (o : JsObject) : list string := List.map fst o.

(** JavaScript truthiness, as [if (cached)] uses it. *)
Definition truthy (v : JsValue) : bool :=
  match v with
  | JUndefined | JNull => false
  | JBool b => b
  | JNum n => negb (PrimFloat.is_nan n || PrimFloat.is_zero n)
  | JStr s => negb (String.eqb s EmptyString)
  | JArr _ | JObj _ => true
  end.

(** ** Strings *)

Definition charCode (c : ascii) : Z := Z.of_N (N_of_ascii c).

Definition dquote : ascii := ascii_of_nat 34.
Definition backslash : ascii := ascii_of_nat 92.

Definition str1 (c : ascii) : string := String c EmptyString.

(** [Array.prototype.join]. *)
Fixpoint join (sep : string) (l : list string) : string :=
  match l with
  | [] => EmptyString
  | [x] => x
  | x :: l' => x ++ sep ++ join sep l'
  end.

(** [n.toString(16)] for a non-negative integer. *)
Definition toString16 (n : Z) : string :=
  HexadecimalString.NilZero.string_of_uint (N.to_hex_uint (Z.to_N n)).

Definition hex4 (n : N) : string :=
  let d (k : N) := HexadecimalString.NilZero.string_of_uint (N.to_hex_uint ((n / 16 ^ k) mod 16)%N) in
  d 3%N ++ d 2%N ++ d 1%N ++ d 0%N.

(** QuoteJSONString of ECMA-262, on code units below 256. *)
Definition quoteChar (c : ascii) : string :=
  let n := N_of_ascii c in
  if (n =? 8)%N then String backslash "b"
  else if (n =? 9)%N then String backslash "t"
  else if (n =? 10)%N then String backslash "n"
  else if (n =? 12)%N then String backslash "f"
  else if (n =? 13)%N then String backslash "r"
  else if (n =? 34)%N then String backslash (str1 dquote)
  else if (n =? 92)%N then String backslash (str1 backslash)
  else if (n <? 32)%N then String backslash ("u" ++ hex4 n)
  else str1 c.

Fixpoint quoteBody (s : string) : string :=
  match s with
  | EmptyString => EmptyString
  | String c s' => quoteChar c ++ quoteBody s'
  end.

Definition QuoteJSONString (s : string) : string :=
  String dquote (quoteBody s ++ str1 dquote).

(** ** JSON.stringify *)

Section JSON.
Context {E : JsEngine}.

(** A non-finite number is serialised as null. *)
Definition SerializeNumber (n : float) : string :=
  if PrimFloat.is_finite n then Number_toString n else "null".

(** One serialised member of an object, when the property exists and its
    value is not undefined. *)
Definition member (done : list (string * option string)) (k : string) : list string :=
  match List.find (fun kv => String.eqb k (fst kv)) done with
  | Some (_, Some s) => [QuoteJSONString k ++ ":" ++ s]
  | _ => []
  end.

(** SerializeJSONProperty. [K] is the property list of an array replacer:
    when present, every object (nested ones too) is written with the keys of
    [K], in the order of [K]; when absent, with its own keys in their own
    order. [None] is the undefined result. *)
Fixpoint SerializeJSONProperty (K : option (list string)) (v : JsValue) : option string :=
  match v with
  | JUndefined => None
  | JNull => Some "null"
  | JBool b => Some (if b then "true" else "false")
  | JNum n => Some (SerializeNumber n)
  | JStr s => Some (QuoteJSONString s)
  | JArr items =>
      Some ("[" ++ join ","
              (List.map (fun x => match SerializeJSONProperty K x with
                                  | Some s => s
                                  | None => "null"
                                  end) items) ++ "]")
  | JObj props =>
      let done := List.map (fun kv => match kv with
                                      | (k, x) => (k, SerializeJSONProperty K x)
                                      end) props in
      let keys := match K with
                  | Some ks => ks
                  | None => List.map fst props
                  end in
      Some ("{" ++ join "," (List.concat (List.map (member done) keys)) ++ "}")
  end.

(** The property list built from an array replacer: its strings in order,
    each kept once. *)
Definition PropertyList (replacer : list string) : list string :=
  fold_left (fun acc x => if bool_decide (x ∈ acc) then acc else (acc ++ [x])%list) replacer [].

(** [JSON.stringify(value)] and [JSON.stringify(value, replacerArray)]. *)
Definition JSON_stringify (v : JsValue) (replacer : option (list string)) : option string :=
  SerializeJSONProperty (PropertyList <$> replacer) v.
End JSON.

(** The default comparison of [Array.prototype.sort] orders strings by code
    unit, which is [String.le]; with a total order the result of the sort is
    the sorted arrangement of the array, whatever algorithm the engine runs. *)
Definition Array_sort (l : list string) : list string := merge_sort String.le l.

(** The error axios rejects a request with. *)
Record AxiosError : Type := {
  (** [err.response?.status]: absent when no response was received. *)
  response_status : option Z;
  (** What [axiosRetry.isNetworkError] reads off an error that carries no
      response (its error code is set, the request was not aborted, and
      the code is one that may be retried). A request that ran into the
      timeout of the client is rejected with the code ECONNABORTED, for
      which this is false. *)
  network_code : bool;
  (** [err.response?.headers\['retry-after'\]] as axios-retry reads it, in
      milliseconds: a number of seconds times 1000, else the time left until
      the date it names; absent without a response or without the header. *)
  retry_after : option float
}.

Inductive JsError : Type :=
| AxiosFailure (e : AxiosError)
| SyntaxError (msg : string)
| OtherError (msg : string).

(** Outcome of a call: a value, or a thrown value (a rejected promise). *)
Inductive result (A : Type) : Type :=
| Returned (a : A)
| Thrown (e : JsError).
Arguments Returned {A} a.
Arguments Thrown {A} e.

(** State-and-exception monad: the state survives a throw. *)
Definition M (S A : Type) : Type := S -> result A * S.

Definition ret {S A} (a : A) : M S A := fun s => (Returned a, s).
Definition throw {S A} (e : JsError) : M S A := fun s => (Thrown e, s).
Definition bind {S A B} (m : M S A) (k : A -> M S B) : M S B :=
  fun s => match m s with
           | (Returned a, s') => k a s'
           | (Thrown e, s') => (Thrown e, s')
           end.
(** [try { m } catch (err) { h err }]. *)
Definition try_catch {S A} (m : M S A) (h : JsError -> M S A) : M S A :=
  fun s => match m s with
           | (Returned a, s') => (Returned a, s')
           | (Thrown e, s') => h e s'
           end.
Definition modify {S} (f : S -> S) : M S unit := fun s => (Returned tt, f s).
Definition gets {S A} (f : S -> A) : M S A := fun s => (Returned (f s), s).
(** Run a computation on a component of the state. *)
Definition zoom {S T A} (get : S -> T) (put : T -> S -> S) (m : M T A) : M S A :=
  fun s => match m (get s) with (r, t') => (r, put t' s) end.

Notation "'let!' x ':=' m 'in' k" := (bind m (fun x => k))
  (at level 10, x binder, m at level 200, k at level 200).
Notation "'do!' m 'in' k" := (bind m (fun _ => k))
  (at level 10, m at level 200, k at level 200).

(* ===================================================================== *)
(** * services/CacheService.ts                                            *)
(* ===================================================================== *)

Module CacheService.

(** ** buildKey *)

(** ToInt32 and ToUint32 on integral numbers. *)
Definition toInt32 (z : Z) : Z := (z + 2 ^ 31) mod 2 ^ 32 - 2 ^ 31.
Definition toUint32 (z : Z) : Z := z mod 2 ^ 32.

(** [a << n] and [a ^ b]. *)
Definition shl (a n : Z) : Z := toInt32 (Z.shiftl (toInt32 a) (n mod 32)).
Definition bxor (a b : Z) : Z := toInt32 (Z.lxor (toInt32 a) (toInt32 b)).

(** One turn of the loop: [hash = ((hash << 5) + hash) ^ stable.charCodeAt(i)]. *)
Definition hashStep (hash : Z) (c : ascii) : Z :=
  bxor (shl hash 5 + hash) (charCode c).

(** The loop over [stable], from the left. *)
Fixpoint hashLoop (stable : string) (hash : Z) : Z :=
  match stable with
  | EmptyString => hash
  | String c rest => hashLoop rest (hashStep hash c)
  end.

Section BuildKey.
Context {E : JsEngine}.

(** [JSON.stringify(params, Object.keys(params).sort())]; the value is an
    object, so the result is a string. *)
Definition stable (params : JsObject) : string :=
  match JSON_stringify (JObj params) (Some (Array_sort (Object_keys params))) with
  | Some s => s
  | None => "undefined"
  end.

Definition buildKey (source endpoint : string) (params : JsObject) : string :=
  let hash := hashLoop (stable params) 5381 in
  source ++ ":" ++ endpoint ++ ":" ++ toString16 (toUint32 hash).

(** The number [buildKey] prints in base 16: [hash >>> 0]. *)
Definition paramsHash (params : JsObject) : Z := toUint32 (hashLoop (stable params) 5381).
End BuildKey.

(** ** Backends *)

(** [interface CacheBackend]. The value handed to [set] is the result of
    [JSON.stringify], a string or undefined ([None]). *)
Class CacheBackend (B : Type) := {
  backend_get : string -> M B (option string);
  backend_set : string -> option string -> Z -> M B unit;
  backend_del : string -> M B unit
}.

(** [class InMemoryBackend]: a NodeCache. An entry holds its value and the
    time it expires at (0: never); [now] is the clock the store reads. *)
Record InMemoryBackend : Type := {
  store : gmap string (option string * Z);
  now : Z
}.

Definition NodeCache_get (key : string) (b : InMemoryBackend) : option string :=
  match store b !! key with
  | Some (val, t) => if (t =? 0) || (now b <=? t) then val else None
  | None => None
  end.

Definition NodeCache_set (key : string) (value : option string) (ttlSeconds : Z)
    (b : InMemoryBackend) : InMemoryBackend :=
  let t := if ttlSeconds =? 0 then 0 else now b + ttlSeconds * 1000 in
  {| store := <[key := (value, t)]> (store b); now := now b |}.

Definition NodeCache_del (key : string) (b : InMemoryBackend) : InMemoryBackend :=
  {| store := delete key (store b); now := now b |}.

#[export] Instance InMemory_CacheBackend : CacheBackend InMemoryBackend := {
  backend_get key := gets (NodeCache_get key);
  backend_set key value ttlSeconds := modify (NodeCache_set key value ttlSeconds);
  backend_del key := modify (NodeCache_del key)
}.

(** The ioredis client: its commands may reject. *)
Class RedisClient (R : Type) := {
  redis_get : string -> M R (option string);
  redis_setex : string -> Z -> option string -> M R unit;
  redis_del : string -> M R unit
}.

(** [class RedisBackend]: the client (null before [connect]) and the
    [ready] flag the client's events set and clear. *)
Record RedisBackend (R : Type) : Type := {
  client : option R;
  ready : bool
}.
Arguments client {R} _.
Arguments ready {R} _.

Section Redis.
Context {R : Type} {RC : RedisClient R}.

(** Run a client command on the client held in the backend. *)
Definition on_client {A} (m : M R A) (absent : A) : M (RedisBackend R) A :=
  fun b => match client b with
           | Some c => match m c with
                       | (r, c') => (r, {| client := Some c'; ready := ready b |})
                       end
           | None => (Returned absent, b)
           end.

Definition unavailable (b : RedisBackend R) : bool :=
  negb (bool_decide (is_Some (client b))) || negb (ready b).

Definition RedisBackend_get (key : string) : M (RedisBackend R) (option string) :=
  fun b => if unavailable b then (Returned None, b)
           else on_client (redis_get key) None b.

Definition RedisBackend_set (key : string) (value : option string) (ttlSeconds : Z)
    : M (RedisBackend R) unit :=
  fun b => if unavailable b then (Returned tt, b)
           else on_client (redis_setex key ttlSeconds value) tt b.

Definition RedisBackend_del (key : string) : M (RedisBackend R) unit :=
  fun b => if unavailable b then (Returned tt, b)
           else on_client (redis_del key) tt b.

#[export] Instance Redis_CacheBackend : CacheBackend (RedisBackend R) := {
  backend_get := RedisBackend_get;
  backend_set := RedisBackend_set;
  backend_del := RedisBackend_del
}.
End Redis.

(** ** CacheService *)

(** [class CacheService] over its active backend. [console] collects the
    lines written with [console.warn]. *)
Record CacheService (B : Type) : Type := {
  backend : B;
  ttl : Z;
  usingRedis : bool;
  console : list string
}.
Arguments backend {B} _.
Arguments ttl {B} _.
Arguments usingRedis {B} _.
Arguments console {B} _.

Section Service.
Context {E : JsEngine} {B : Type} {CB : CacheBackend B}.

Definition on_backend {A} (m : M B A) : M (CacheService B) A :=
  zoom backend
       (fun b s => {| backend := b; ttl := ttl s; usingRedis := usingRedis s;
                      console := console s |}) m.

Definition console_warn (line : string) : M (CacheService B) unit :=
  modify (fun s => {| backend := backend s; ttl := ttl s; usingRedis := usingRedis s;
                      console := (console s ++ [line])%list |}).

(** [const raw = await this.backend.get(key); if (raw === null) return null;
     return JSON.parse(raw)], and [null] from the catch. *)
Definition get (key : string) : M (CacheService B) JsValue :=
  try_catch
    (let! raw := on_backend (backend_get key) in
     match raw with
     | None => ret JNull
     | Some raw =>
         match JSON_parse raw with
         | Some v => ret v
         | None => throw (SyntaxError "Unexpected token")
         end
     end)
    (fun _ => ret JNull).

Definition set (key : string) (value : JsValue) (ttlSeconds : option Z)
    : M (CacheService B) unit :=
  try_catch
    (let! t := gets (fun s => match ttlSeconds with Some t => t | None => ttl s end) in
     on_backend (backend_set key (JSON_stringify value None) t))
    (fun _ => console_warn "CacheService.set failed:").

Definition invalidate (key : string) : M (CacheService B) unit :=
  try_catch
    (on_backend (backend_del key))
    (fun _ => console_warn "CacheService.invalidate failed:").
End Service.

End CacheService.

(* ===================================================================== *)
(** * adapters/DataSourceAdapter.ts                                       *)
(* ===================================================================== *)

Module BoundingBox.
Record t : Type := { north : float; south : float; east : float; west : float }.
End BoundingBox.

(** [limit] is an integral number wherever the repository passes one (the
    routes parse it with [.int()]); it is carried as an integer. *)
Module RadiusQuery.
Record t : Type := {
  lat : float;
  lng : float;
  radiusMetres : float;
  limit : option Z
}.
End RadiusQuery.

Module BusinessRecord.
Record t : Type := {
  id : string;
  name : string;
  category : string;
  licenseType : string;
  status : string;
  lat : option float;
  lng : option float;
  issueDate : option string;
  province : string;
  source : string;
  _raw : option JsObject
}.
End BusinessRecord.

(** [interface DataSourceAdapter], without [fetchCategories]. *)
Class DataSourceAdapter (A : Type) := {
  sourceId : string;
  fetchByBoundingBox : BoundingBox.t -> option Z -> M A (list BusinessRecord.t);
  fetchByRadius : RadiusQuery.t -> M A (list BusinessRecord.t)
}.

(** [Array.prototype.slice(0, end)] for an integral [end]: a negative [end]
    counts from the end of the array. *)
Definition Array_slice0 {A} (l : list A) (end_ : Z) : list A :=
  let len := Z.of_nat (length l) in
  let final := if end_ <? 0 then Z.max (len + end_) 0 else Z.min end_ len in
  firstn (Z.to_nat final) l.

(** [await]-ing each element of [data.map(f)] in order. *)
Fixpoint mapM {S A B} (f : A -> M S B) (l : list A) : M S (list B) :=
  match l with
  | [] => ret []
  | x :: l' => let! y := f x in let! ys := mapM f l' in ret (y :: ys)
  end.

(* ===================================================================== *)
(** * adapters/CalgaryBusinessLicenseAdapter.ts                           *)
(* ===================================================================== *)

Module Point.
(** [point?: { type; coordinates: \[lng, lat\] }]; [coordinates] is
    tested for presence by the adapter. *)
Record t : Type := { type : string; coordinates : option (float * float) }.
End Point.

Module SocrataRecord.
Record t : Type := {
  getbusid : option string;
  tradename : option string;
  address : option string;
  licencetypes : option string;
  jobstatusdesc : option string;
  first_iss_dt : option string;
  point : option Point.t;
  (** [\[key: string\]: unknown] *)
  extra : JsObject
}.

Definition field (k : string) (v : option string) : JsObject :=
  match v with Some s => [(k, JStr s)] | None => [] end.

Definition pointValue (p : Point.t) : JsValue :=
  JObj ([("type", JStr (Point.type p))] ++
        match Point.coordinates p with
        | Some (x, y) => [("coordinates", JArr [JNum x; JNum y])]
        | None => []
        end)%list.

(** The record as the object it is at run time: what [_raw: r] stores. *)
Definition toObject (r : t) : JsObject :=
  (field "getbusid" (getbusid r) ++ field "tradename" (tradename r) ++
   field "address" (address r) ++ field "licencetypes" (licencetypes r) ++
   field "jobstatusdesc" (jobstatusdesc r) ++ field "first_iss_dt" (first_iss_dt r) ++
   match point r with Some p => [("point", pointValue p)] | None => [] end ++
   extra r)%list.
End SocrataRecord.

Module Calgary.

Definition SOCRATA_PAGE_LIMIT : Z := 1000.
Definition Calgary_sourceId : string := "calgary".

(** The query parameters of one request: [$where], [$limit], [$order]. *)
Record Request : Type := { p_where : string; p_limit : Z; p_order : string }.

(** What one HTTP attempt ends in: a 2xx response with its body, or the
    error axios rejects with. *)
Inductive Attempt : Type :=
| Response (data : list SocrataRecord.t)
| Failure (err : AxiosError).

(** The upstream and the network between: the outcome of the n-th attempt
    the process makes (counted from 0), given the request sent, and the time
    that attempt took in milliseconds, as the retry interceptor measures it
    ([Date.now()] when the attempt settles less [Date.now()] when it was
    sent). An attempt that outlasts the timeout in force is among the
    failures: axios rejects it with the code ECONNABORTED. *)
Class Upstream := {
  axios_request : nat -> Request -> Attempt;
  axios_duration : nat -> Request -> float
}.

(** The adapter's world: every attempt sent, the delays slept between
    attempts (milliseconds), the number of UUIDs and the number of random
    numbers drawn so far. *)
Record State : Type := {
  sent : list Request;
  sleeps : list float;
  uuidCalls : nat;
  randomCalls : nat
}.

Definition initial : State :=
  {| sent := []; sleeps := []; uuidCalls := 0; randomCalls := 0 |}.

(** ** The client of the constructor: [axios.create] and [axiosRetry] *)

(** [timeout: 10_000]. *)
Definition timeout : float := 10000.

Definition retries : nat := 3.

(** [axiosRetry.isNetworkError]: no response was received and the error
    code is a network one. *)
Definition isNetworkError (err : AxiosError) : bool :=
  match response_status err with
  | Some _ => false
  | None => network_code err
  end.

Definition retryCondition (err : AxiosError) : bool :=
  let status := response_status err in
  isNetworkError err
  || bool_decide (status = Some 429)
  || match status with Some st => 500 <=? st | None => false end.

(** An integral number of milliseconds as the number it is (for a number
    from 0 to 2^53, as the delays 200, 400 and 800 are). *)
Definition milliseconds (z : Z) : float := PrimFloat.of_uint63 (Uint63.of_Z z).

(** axios-retry's [retryAfter(error)]: the Retry-After header of the
    response in milliseconds, never negative; 0 without one. *)
Definition retryAfter (err : AxiosError) : float :=
  match retry_after err with
  | Some retryAfterMs => Math_max 0 retryAfterMs
  | None => 0
  end.

(** [axiosRetry.exponentialDelay(retryNumber, error)], with the number
    [Math.random()] returned to it:
    [calculatedDelay = 2 ** retryNumber * 100],
    [delay = Math.max(calculatedDelay, retryAfter(error))],
    [randomSum = delay * 0.2 * Math.random()], and the result is
    [delay + randomSum]. *)
Definition exponentialDelay (retryNumber : nat) (err : AxiosError) (random : float) : float :=
  let calculatedDelay := milliseconds (2 ^ Z.of_nat retryNumber * 100) in
  let delay := Math_max calculatedDelay (retryAfter err) in
  let randomSum := (delay * 0.2 * random)%float in
  (delay + randomSum)%float.

Section Adapter.
Context {E : JsEngine} {U : Upstream}.

(** One attempt: its outcome and the time it took. *)
Definition send (req : Request) : M State (Attempt * float) :=
  fun s => (Returned (axios_request (length (sent s)) req,
                      axios_duration (length (sent s)) req),
            {| sent := (sent s ++ [req])%list; sleeps := sleeps s;
               uuidCalls := uuidCalls s; randomCalls := randomCalls s |}).

Definition sleep (ms : float) : M State unit :=
  modify (fun s => {| sent := sent s; sleeps := (sleeps s ++ [ms])%list;
                      uuidCalls := uuidCalls s; randomCalls := randomCalls s |}).

Definition random : M State float :=
  fun s => (Returned (Math_random (randomCalls s)),
            {| sent := sent s; sleeps := sleeps s; uuidCalls := uuidCalls s;
               randomCalls := S (randomCalls s) |}).

(** The response interceptor axios-retry installs. [retries] is the
    number of retries after the first failure: a failed attempt is handed
    to [handleRetry] when [retryCount < retries && retryCondition(error)].
    [handleRetry] increments [retryCount] and computes the delay; then,
    [shouldResetTimeout] being false, it takes the duration of the failed
    attempt and the delay off [config.timeout] (when that is truthy;
    [lastRequestTime], a time stamp the request interceptor sets at every
    attempt, always is) and rejects with the error when nothing is left,
    else stores the rest as the timeout of the next attempt; then it sleeps
    the delay and sends the request again. [budget] is
    [retries - retryCount], and [config_timeout] is [config.timeout]. *)
Fixpoint attempt (budget : nat) (config_timeout : float) (req : Request)
    : M State (list SocrataRecord.t) :=
  let! sending := send req in
  match sending with
  | (Response data, _) => ret data
  | (Failure err, lastRequestDuration) =>
      match budget with
      | S budget' =>
          if retryCondition err then
            let! r := random in
            let delay := exponentialDelay (retries - budget') err r in
            if truthy (JNum config_timeout) then
              let timeout := (config_timeout - lastRequestDuration - delay)%float in
              if (timeout <=? 0)%float then throw (AxiosFailure err)
              else do! sleep delay in attempt budget' timeout req
            else do! sleep delay in attempt budget' config_timeout req
          else throw (AxiosFailure err)
      | O => throw (AxiosFailure err)
      end
  end.

(** [this.client.get('', { params })]: every call starts from the timeout
    of the client. *)
Definition client_get (req : Request) : M State (list SocrataRecord.t) :=
  attempt retries timeout req.

Definition randomUUID : M State string :=
  fun s => (Returned (crypto_randomUUID (uuidCalls s)),
            {| sent := sent s; sleeps := sleeps s; uuidCalls := S (uuidCalls s);
               randomCalls := randomCalls s |}).

Definition toBusinessRecord (r : SocrataRecord.t) : M State BusinessRecord.t :=
  let position :=
    match SocrataRecord.point r with
    | Some p =>
        match Point.coordinates p with
        | Some (c0, c1) => (Some c1, Some c0)
        | None => (None, None)
        end
    | None => (None, None)
    end in
  let! id := match SocrataRecord.getbusid r with
             | Some i => ret i
             | None => randomUUID
             end in
  ret {| BusinessRecord.id := id;
         BusinessRecord.name := default "Unknown Business" (SocrataRecord.tradename r);
         BusinessRecord.category := default "Uncategorized" (SocrataRecord.licencetypes r);
         BusinessRecord.licenseType := default EmptyString (SocrataRecord.licencetypes r);
         BusinessRecord.status := default "Active" (SocrataRecord.jobstatusdesc r);
         BusinessRecord.lat := fst position;
         BusinessRecord.lng := snd position;
         BusinessRecord.issueDate := SocrataRecord.first_iss_dt r;
         BusinessRecord.province := "AB";
         BusinessRecord.source := Calgary_sourceId;
         BusinessRecord._raw := Some (SocrataRecord.toObject r) |}.

Definition within_box (bbox : BoundingBox.t) : string :=
  "POINT IS NOT NULL AND within_box(POINT, " ++ Number_toString (BoundingBox.north bbox)
  ++ ", " ++ Number_toString (BoundingBox.west bbox)
  ++ ", " ++ Number_toString (BoundingBox.south bbox)
  ++ ", " ++ Number_toString (BoundingBox.east bbox) ++ ")".

(** The [params] of the request [fetchByBoundingBox] sends. *)
Definition bboxRequest (bbox : BoundingBox.t) (limit : option Z) : Request :=
  {| p_where := within_box bbox;
     p_limit := default SOCRATA_PAGE_LIMIT limit;
     p_order := "FIRST_ISS_DT DESC" |}.

Definition Calgary_fetchByBoundingBox (bbox : BoundingBox.t) (limit : option Z)
    : M State (list BusinessRecord.t) :=
  let! data := client_get (bboxRequest bbox limit) in
  mapM toBusinessRecord data.

Definition toRad (deg : float) : float := (deg * Math_PI / 180)%float.

Definition haversine (lat1 lng1 lat2 lng2 : float) : float :=
  let R := 6371000%float in
  let dLat := toRad (lat2 - lat1) in
  let dLng := toRad (lng2 - lng1) in
  let a := (Number_exponentiate (Math_sin (dLat / 2)) 2 +
            Math_cos (toRad lat1) * Math_cos (toRad lat2) *
            Number_exponentiate (Math_sin (dLng / 2)) 2)%float in
  (R * 2 * Math_atan2 (Math_sqrt a) (Math_sqrt (1 - a)))%float.

(** The box [fetchByRadius] asks for. *)
Definition radiusBox (lat lng radiusMetres : float) : BoundingBox.t :=
  let degreeOffset := (radiusMetres / 111320)%float in
  {| BoundingBox.north := (lat + degreeOffset)%float;
     BoundingBox.south := (lat - degreeOffset)%float;
     BoundingBox.east := (lng + degreeOffset / Math_cos (lat * Math_PI / 180))%float;
     BoundingBox.west := (lng - degreeOffset / Math_cos (lat * Math_PI / 180))%float |}.

(** The predicate of the filter:
    [r.lat !== null && r.lng !== null && haversine(lat, lng, r.lat, r.lng) <= radiusMetres]. *)
Definition inCircle (lat lng radiusMetres : float) (r : BusinessRecord.t) : bool :=
  match BusinessRecord.lat r, BusinessRecord.lng r with
  | Some rlat, Some rlng => (haversine lat lng rlat rlng <=? radiusMetres)%float
  | _, _ => false
  end.

Definition Calgary_fetchByRadius (query : RadiusQuery.t) : M State (list BusinessRecord.t) :=
  let lat := RadiusQuery.lat query in
  let lng := RadiusQuery.lng query in
  let radiusMetres := RadiusQuery.radiusMetres query in
  let limit := default SOCRATA_PAGE_LIMIT (RadiusQuery.limit query) in
  let! records := Calgary_fetchByBoundingBox (radiusBox lat lng radiusMetres)
                                             (Some (limit * 2)) in
  ret (Array_slice0 (List.filter (inCircle lat lng radiusMetres) records) limit).

#[export] Instance Calgary_DataSourceAdapter : DataSourceAdapter State := {
  sourceId := Calgary_sourceId;
  fetchByBoundingBox := Calgary_fetchByBoundingBox;
  fetchByRadius := Calgary_fetchByRadius
}.

(** ** Observations the statements below are written with *)

(** The n-th attempt fails with an error [retryCondition] accepts. *)
Definition retryableAt (n : nat) (req : Request) : bool :=
  match axios_request n req with
  | Failure e => retryCondition e
  | Response _ => false
  end.

(** What the caller of [client.get] sees of the last attempt. *)
Definition settle (a : Attempt) : result (list SocrataRecord.t) :=
  match a with
  | Response d => Returned d
  | Failure e => Thrown (AxiosFailure e)
  end.

(** A call whose first attempt is the [n0]-th of the process and that
    starts with [r0] random numbers drawn: the delay computed after the
    failure of its [j]-th attempt (from 0), what is left of the timeout when
    that attempt is sent, and whether the time is used up after it. *)
Definition delayAt (n0 r0 : nat) (req : Request) (j : nat) : float :=
  match axios_request (n0 + j) req with
  | Failure err => exponentialDelay (S j) err (Math_random (r0 + j))
  | Response _ => 0
  end.

Fixpoint timeoutAt (n0 r0 : nat) (req : Request) (j : nat) : float :=
  match j with
  | O => timeout
  | S j' =>
      let left := timeoutAt n0 r0 req j' in
      if truthy (JNum left)
      then (left - axios_duration (n0 + j') req - delayAt n0 r0 req j')%float
      else left
  end.

Definition timedOutAt (n0 r0 : nat) (req : Request) (j : nat) : bool :=
  truthy (JNum (timeoutAt n0 r0 req j)) && (timeoutAt n0 r0 req (S j) <=? 0)%float.

(** The position an upstream record carries, as [(lng, lat)]. *)
Definition positionOf (r : SocrataRecord.t) : option (float * float) :=
  match SocrataRecord.point r with
  | Some p => Point.coordinates p
  | None => None
  end.

(** [b] is the normalisation of [r], but for the identifier of a record
    without [getbusid]. *)
Definition normalises (r : SocrataRecord.t) (b : BusinessRecord.t) : Prop :=
  BusinessRecord.lat b = snd <$> positionOf r /\
  BusinessRecord.lng b = fst <$> positionOf r /\
  (forall i, SocrataRecord.getbusid r = Some i -> BusinessRecord.id b = i) /\
  BusinessRecord.name b = default "Unknown Business" (SocrataRecord.tradename r) /\
  BusinessRecord.category b = default "Uncategorized" (SocrataRecord.licencetypes r) /\
  BusinessRecord.licenseType b = default EmptyString (SocrataRecord.licencetypes r) /\
  BusinessRecord.status b = default "Active" (SocrataRecord.jobstatusdesc r) /\
  BusinessRecord.issueDate b = SocrataRecord.first_iss_dt r /\
  BusinessRecord.province b = "AB" /\
  BusinessRecord.source b = "calgary" /\
  BusinessRecord._raw b = Some (SocrataRecord.toObject r).

(** The generator never returns the same value twice. *)
Definition fresh_uuids : Prop :=
  forall m n : nat, m <> n -> crypto_randomUUID m <> crypto_randomUUID n.
End Adapter.

End Calgary.

(* ===================================================================== *)
(** * transformers/                                                       *)
(* ===================================================================== *)

Definition nullable {A} (f : A -> JsValue) (v : option A) : JsValue :=
  match v with Some x => f x | None => JNull end.

Module PublicBusinessRecord.
Record t : Type := {
  id : string;
  name : string;
  category : string;
  licenseType : string;
  status : string;
  lat : option float;
  lng : option float;
  issueDate : option string;
  province : string;
  source : string
}.

(** The object a record is at run time, properties in the order of the
    literal that builds it. *)
Definition toObject (r : t) : JsObject :=
  [("id", JStr (id r)); ("name", JStr (name r)); ("category", JStr (category r));
   ("licenseType", JStr (licenseType r)); ("status", JStr (status r));
   ("lat", nullable JNum (lat r)); ("lng", nullable JNum (lng r));
   ("issueDate", nullable JStr (issueDate r));
   ("province", JStr (province r)); ("source", JStr (source r))].
End PublicBusinessRecord.

Definition toPublicRecord (record : BusinessRecord.t) : PublicBusinessRecord.t :=
  {| PublicBusinessRecord.id := BusinessRecord.id record;
     PublicBusinessRecord.name := BusinessRecord.name record;
     PublicBusinessRecord.category := BusinessRecord.category record;
     PublicBusinessRecord.licenseType := BusinessRecord.licenseType record;
     PublicBusinessRecord.status := BusinessRecord.status record;
     PublicBusinessRecord.lat := BusinessRecord.lat record;
     PublicBusinessRecord.lng := BusinessRecord.lng record;
     PublicBusinessRecord.issueDate := BusinessRecord.issueDate record;
     PublicBusinessRecord.province := BusinessRecord.province record;
     PublicBusinessRecord.source := BusinessRecord.source record |}.

Definition toPublicRecords (records : list BusinessRecord.t) : list PublicBusinessRecord.t :=
  List.map toPublicRecord records.

(** The ten whitelisted fields, and two records agreeing on them. *)
Definition whitelist : list string :=
  ["id"; "name"; "category"; "licenseType"; "status"; "lat"; "lng"; "issueDate";
   "province"; "source"].

Definition agreeOnWhitelist (r1 r2 : BusinessRecord.t) : Prop :=
  BusinessRecord.id r1 = BusinessRecord.id r2 /\
  BusinessRecord.name r1 = BusinessRecord.name r2 /\
  BusinessRecord.category r1 = BusinessRecord.category r2 /\
  BusinessRecord.licenseType r1 = BusinessRecord.licenseType r2 /\
  BusinessRecord.status r1 = BusinessRecord.status r2 /\
  BusinessRecord.lat r1 = BusinessRecord.lat r2 /\
  BusinessRecord.lng r1 = BusinessRecord.lng r2 /\
  BusinessRecord.issueDate r1 = BusinessRecord.issueDate r2 /\
  BusinessRecord.province r1 = BusinessRecord.province r2 /\
  BusinessRecord.source r1 = BusinessRecord.source r2.

(** [{ ...record, _raw: payload }]. *)
Definition withRaw (record : BusinessRecord.t) (payload : option JsObject) : BusinessRecord.t :=
  {| BusinessRecord.id := BusinessRecord.id record;
     BusinessRecord.name := BusinessRecord.name record;
     BusinessRecord.category := BusinessRecord.category record;
     BusinessRecord.licenseType := BusinessRecord.licenseType record;
     BusinessRecord.status := BusinessRecord.status record;
     BusinessRecord.lat := BusinessRecord.lat record;
     BusinessRecord.lng := BusinessRecord.lng record;
     BusinessRecord.issueDate := BusinessRecord.issueDate record;
     BusinessRecord.province := BusinessRecord.province record;
     BusinessRecord.source := BusinessRecord.source record;
     BusinessRecord._raw := payload |}.

Module StaffBusinessRecord.
(** [Omit<BusinessRecord, '_raw'>] and [raw]. *)
Record t : Type := {
  id : string;
  name : string;
  category : string;
  licenseType : string;
  status : string;
  lat : option float;
  lng : option float;
  issueDate : option string;
  province : string;
  source : string;
  raw : JsObject
}.

Definition toObject (r : t) : JsObject :=
  [("id", JStr (id r)); ("name", JStr (name r)); ("category", JStr (category r));
   ("licenseType", JStr (licenseType r)); ("status", JStr (status r));
   ("lat", nullable JNum (lat r)); ("lng", nullable JNum (lng r));
   ("issueDate", nullable JStr (issueDate r));
   ("province", JStr (province r)); ("source", JStr (source r));
   ("raw", JObj (raw r))].
End StaffBusinessRecord.

Definition toStaffRecord (record : BusinessRecord.t) : StaffBusinessRecord.t :=
  {| StaffBusinessRecord.id := BusinessRecord.id record;
     StaffBusinessRecord.name := BusinessRecord.name record;
     StaffBusinessRecord.category := BusinessRecord.category record;
     StaffBusinessRecord.licenseType := BusinessRecord.licenseType record;
     StaffBusinessRecord.status := BusinessRecord.status record;
     StaffBusinessRecord.lat := BusinessRecord.lat record;
     StaffBusinessRecord.lng := BusinessRecord.lng record;
     StaffBusinessRecord.issueDate := BusinessRecord.issueDate record;
     StaffBusinessRecord.province := BusinessRecord.province record;
     StaffBusinessRecord.source := BusinessRecord.source record;
     StaffBusinessRecord.raw := default [] (BusinessRecord._raw record) |}.

Definition toStaffRecords (records : list BusinessRecord.t) : list StaffBusinessRecord.t :=
  List.map toStaffRecord records.

(* ===================================================================== *)
(** * routes/public.routes.ts and routes/staff.routes.ts                  *)
(* ===================================================================== *)

Module Routes.

(** An integral number as the number it is. *)
Definition Number_of_Z (z : Z) : float :=
  if z <? 0 then (- PrimFloat.of_uint63 (Uint63.of_Z (- z)))%float
  else PrimFloat.of_uint63 (Uint63.of_Z z).

Record HttpRequest : Type := {
  query : list (string * string);
  authorization : option string
}.

Record HttpResponse : Type := {
  statusCode : Z;
  headers : list (string * string);
  body : JsValue
}.

Record BboxData : Type := {
  north : float; south : float; east : float; west : float; limit : Z
}.

Record NearbyData : Type := {
  lat : float; lng : float; radius : float; nearby_limit : Z
}.

Inductive JwtOutcome : Type :=
| Verified (role : string)
| TokenExpired
| InvalidToken.

(** The libraries the routes call: zod's [safeParse] for each schema (the
    flattened error, or the parsed data) and jsonwebtoken's [verify]. *)
Class Collaborators := {
  bboxSchema_safeParse : list (string * string) -> JsValue + BboxData;
  nearbySchema_safeParse : list (string * string) -> JsValue + NearbyData;
  staff_bboxSchema_safeParse : list (string * string) -> JsValue + BboxData;
  jwt_verify : string -> JwtOutcome
}.

(** The module-level adapter and cache service, and what [console.error]
    wrote. *)
Record World (A B : Type) : Type := {
  adapter : A;
  cacheService : CacheService.CacheService B;
  errors : list string
}.
Arguments adapter {A B} _.
Arguments cacheService {A B} _.
Arguments errors {A B} _.

Definition json (code : Z) (hs : list (string * string)) (v : JsValue) : HttpResponse :=
  {| statusCode := code; headers := hs; body := v |}.

Definition invalidQuery (details : JsValue) : HttpResponse :=
  json 400 [] (JObj [("error", JStr "Invalid query parameters"); ("details", details)]).

Definition upstreamUnavailable : HttpResponse :=
  json 502 [] (JObj [("error", JStr "Upstream data source unavailable")]).

Definition bboxParams (d : BboxData) : JsObject :=
  [("north", JNum (north d)); ("south", JNum (south d)); ("east", JNum (east d));
   ("west", JNum (west d)); ("limit", JNum (Number_of_Z (limit d)))].

Definition nearbyParams (d : NearbyData) : JsObject :=
  [("lat", JNum (lat d)); ("lng", JNum (lng d)); ("radius", JNum (radius d));
   ("limit", JNum (Number_of_Z (nearby_limit d)))].

Definition boxOf (d : BboxData) : BoundingBox.t :=
  {| BoundingBox.north := north d; BoundingBox.south := south d;
     BoundingBox.east := east d; BoundingBox.west := west d |}.

Definition radiusQueryOf (d : NearbyData) : RadiusQuery.t :=
  {| RadiusQuery.lat := lat d; RadiusQuery.lng := lng d;
     RadiusQuery.radiusMetres := radius d; RadiusQuery.limit := Some (nearby_limit d) |}.

Section Handlers.
Context {E : JsEngine} {C : Collaborators}.
Context {A : Type} {DSA : DataSourceAdapter A} {B : Type} {CB : CacheService.CacheBackend B}.

Definition on_adapter {T} (m : M A T) : M (World A B) T :=
  zoom adapter
       (fun a w => {| adapter := a; cacheService := cacheService w; errors := errors w |}) m.

Definition on_cache {T} (m : M (CacheService.CacheService B) T) : M (World A B) T :=
  zoom cacheService
       (fun c w => {| adapter := adapter w; cacheService := c; errors := errors w |}) m.

Definition console_error (line : string) : M (World A B) unit :=
  modify (fun w => {| adapter := adapter w; cacheService := cacheService w;
                      errors := (errors w ++ [line])%list |}).

(** What the three handlers share after validation: the cache lookup,
    and on a miss the fetch, the projection, the cache write and the
    answer, inside [try]; the [catch] answers 502. *)
Definition cacheAside (cacheKey : string) (fetch : M A (list BusinessRecord.t))
    (project : list BusinessRecord.t -> JsValue) (ttlSeconds : option Z)
    (label : string) : M (World A B) HttpResponse :=
  let! cached := on_cache (CacheService.get cacheKey) in
  if truthy cached then ret (json 200 [("X-Cache", "HIT")] cached)
  else
    try_catch
      (let! records := on_adapter fetch in
       let result := project records in
       do! on_cache (CacheService.set cacheKey result ttlSeconds) in
       ret (json 200 [("X-Cache", "MISS")] result))
      (fun _ => do! console_error label in ret upstreamUnavailable).

Definition publicJSON (records : list BusinessRecord.t) : JsValue :=
  JArr (List.map (fun r => JObj (PublicBusinessRecord.toObject r)) (toPublicRecords records)).

Definition staffJSON (records : list BusinessRecord.t) : JsValue :=
  JArr (List.map (fun r => JObj (StaffBusinessRecord.toObject r)) (toStaffRecords records)).

(** GET /api/v1/businesses *)
Definition getBusinesses (req : HttpRequest) : M (World A B) HttpResponse :=
  match bboxSchema_safeParse (query req) with
  | inl details => ret (invalidQuery details)
  | inr d =>
      cacheAside (CacheService.buildKey "calgary" "bbox" (bboxParams d))
                 (fetchByBoundingBox (boxOf d) (Some (limit d)))
                 publicJSON None "fetchByBoundingBox error:"
  end.

(** GET /api/v1/businesses/nearby *)
Definition getNearby (req : HttpRequest) : M (World A B) HttpResponse :=
  match nearbySchema_safeParse (query req) with
  | inl details => ret (invalidQuery details)
  | inr d =>
      cacheAside (CacheService.buildKey "calgary" "nearby" (nearbyParams d))
                 (fetchByRadius (radiusQueryOf d))
                 publicJSON None "fetchByRadius error:"
  end.

(** [requireJwt] then [requireRole('staff')]: the response that ends the
    request, or [None] when both call [next()]. *)
Definition requireStaff (req : HttpRequest) : option HttpResponse :=
  match authorization req with
  | Some authHeader =>
      if String.prefix "Bearer " authHeader then
        let token := String.substring 7 (String.length authHeader - 7) authHeader in
        match jwt_verify token with
        | Verified role =>
            if negb (String.eqb role "staff") && negb (String.eqb role "admin")
            then Some (json 403 [] (JObj [("error", JStr "Insufficient permissions")]))
            else None
        | TokenExpired => Some (json 401 [] (JObj [("error", JStr "Token expired")]))
        | InvalidToken => Some (json 401 [] (JObj [("error", JStr "Invalid token")]))
        end
      else Some (json 401 [] (JObj [("error", JStr "Missing or malformed Authorization header")]))
  | None => Some (json 401 [] (JObj [("error", JStr "Missing or malformed Authorization header")]))
  end.

(** GET /api/v1/staff/businesses *)
Definition getStaffBusinesses (req : HttpRequest) : M (World A B) HttpResponse :=
  match requireStaff req with
  | Some refusal => ret refusal
  | None =>
      match staff_bboxSchema_safeParse (query req) with
      | inl details => ret (invalidQuery details)
      | inr d =>
          cacheAside (CacheService.buildKey "calgary" "staff-bbox" (bboxParams d))
                     (fetchByBoundingBox (boxOf d) (Some (limit d)))
                     staffJSON (Some 900) "staff fetchByBoundingBox error:"
      end
  end.

(** ** Observations the statements below are written with *)

Inductive Route : Type := PublicBusinesses | PublicNearby | StaffBusinesses.

Definition handler (route : Route) : HttpRequest -> M (World A B) HttpResponse :=
  match route with
  | PublicBusinesses => getBusinesses
  | PublicNearby => getNearby
  | StaffBusinesses => getStaffBusinesses
  end.

(** The cache key and the adapter call of a request that passed
    authorisation and validation. *)
Definition validQuery (route : Route) (req : HttpRequest)
    : option (string * M A (list BusinessRecord.t)) :=
  match route with
  | PublicBusinesses =>
      match bboxSchema_safeParse (query req) with
      | inr d => Some (CacheService.buildKey "calgary" "bbox" (bboxParams d),
                       fetchByBoundingBox (boxOf d) (Some (limit d)))
      | inl _ => None
      end
  | PublicNearby =>
      match nearbySchema_safeParse (query req) with
      | inr d => Some (CacheService.buildKey "calgary" "nearby" (nearbyParams d),
                       fetchByRadius (radiusQueryOf d))
      | inl _ => None
      end
  | StaffBusinesses =>
      match requireStaff req, staff_bboxSchema_safeParse (query req) with
      | None, inr d => Some (CacheService.buildKey "calgary" "staff-bbox" (bboxParams d),
                             fetchByBoundingBox (boxOf d) (Some (limit d)))
      | _, _ => None
      end
  end.
End Handlers.

End Routes.

(* ===================================================================== *)
(** * Concrete engines, upstreams and requests for the examples           *)
(* ===================================================================== *)

Module Examples.

(** A finite number times 10^6, rounded to the nearest integer. *)
Definition scaled (x : float) : Z :=
  match Prim2SF x with
  | S754_finite _ m e =>
      if 0 <=? e then Z.pos m * 2 ^ e * 1000000
      else (Z.pos m * 2000000 + 2 ^ (- e)) / (2 * 2 ^ (- e))
  | _ => 0
  end.

Definition decimal (n : Z) : string :=
  DecimalString.NilZero.string_of_uint (N.to_uint (Z.to_N n)).

(** The decimals of [frac / 10^digits], without trailing zeros. *)
Fixpoint decimals (digits : nat) (frac : Z) : string :=
  match digits with
  | O => EmptyString
  | S d =>
      if frac =? 0 then EmptyString
      else decimal (frac / 10 ^ Z.of_nat d) ++ decimals d (frac mod 10 ^ Z.of_nat d)
  end.

(** Decimal printing, exact on numbers with at most six decimals. *)
Definition printNumber (x : float) : string :=
  if PrimFloat.is_nan x then "NaN"
  else if PrimFloat.is_infinity x then (if (x <? 0)%float then "-Infinity" else "Infinity")
  else
    let n := scaled x in
    let sign := if (x <? 0)%float && negb (n =? 0) then "-" else EmptyString in
    let frac := n mod 1000000 in
    sign ++ decimal (n / 1000000)
         ++ (if frac =? 0 then EmptyString else "." ++ decimals 6 frac).

(** Taylor polynomials around 0. *)
Definition sinPoly (x : float) : float :=
  (x - x * x * x / 6 + x * x * x * x * x / 120 - x * x * x * x * x * x * x / 5040)%float.

Definition cosPoly (x : float) : float :=
  (1 - x * x / 2 + x * x * x * x / 24 - x * x * x * x * x * x / 720)%float.

Definition atanPoly (t : float) : float :=
  (t - t * t * t / 3 + t * t * t * t * t / 5)%float.

Definition atan2Poly (y x : float) : float :=
  if (0 <? x)%float then atanPoly (y / x)
  else if (0 <=? y)%float then (Math_PI / 2)%float else (- (Math_PI / 2))%float.

Definition power (x y : float) : float :=
  if (y =? 2)%float then (x * x)%float
  else if (y =? 1)%float then x
  else if (y =? 0)%float then 1%float
  else PrimFloat.nan.

Definition parseLiteral (text : string) : option JsValue :=
  if String.eqb text "null" then Some JNull
  else if String.eqb text "true" then Some (JBool true)
  else if String.eqb text "false" then Some (JBool false)
  else if String.eqb text "[]" then Some (JArr [])
  else None.

(** An engine for the examples. Its Math functions are low-order
    polynomials, its numbers print with at most six decimals, its UUIDs are
    numbered in sequence, its random numbers are all 0.5, and its parser
    reads the literals the examples store. The theorems hold for every engine. *)
#[export] Instance engine : JsEngine := {
  Math_sin := sinPoly;
  Math_cos := cosPoly;
  Math_atan2 := atan2Poly;
  Math_random _ := 0.5%float;
  Number_exponentiate := power;
  Number_toString := printNumber;
  crypto_randomUUID n := "00000000-0000-4000-8000-" ++ toString16 (Z.of_nat n);
  JSON_parse := parseLiteral
}.

(** ** Upstreams *)

Definition status (code : Z) : AxiosError :=
  {| response_status := Some code; network_code := false; retry_after := None |}.

(** Every attempt is answered 503, after 50 ms as every attempt of the
    next three upstreams. *)
Definition upstreamDown : Calgary.Upstream :=
  {| Calgary.axios_request _ _ := Calgary.Failure (status 503);
     Calgary.axios_duration _ _ := 50%float |}.

(** Every attempt is answered 400. *)
Definition upstreamRejecting : Calgary.Upstream :=
  {| Calgary.axios_request _ _ := Calgary.Failure (status 400);
     Calgary.axios_duration _ _ := 50%float |}.

(** Two attempts are answered 503, the later ones with [data]. *)
Definition upstreamRecovering (data : list SocrataRecord.t) : Calgary.Upstream :=
  {| Calgary.axios_request n _ :=
       if (n <? 2)%nat then Calgary.Failure (status 503) else Calgary.Response data;
     Calgary.axios_duration _ _ := 50%float |}.

Definition upstreamServing (data : list SocrataRecord.t) : Calgary.Upstream :=
  {| Calgary.axios_request _ _ := Calgary.Response data;
     Calgary.axios_duration _ _ := 50%float |}.

(** Every attempt is answered 503 after 9.9 seconds. *)
Definition upstreamSlow : Calgary.Upstream :=
  {| Calgary.axios_request _ _ := Calgary.Failure (status 503);
     Calgary.axios_duration _ _ := 9900%float |}.

(** Every attempt is answered 503 with the header [Retry-After: seconds]. *)
Definition upstreamBusy (seconds : Z) : Calgary.Upstream :=
  {| Calgary.axios_request _ _ :=
       Calgary.Failure {| response_status := Some 503; network_code := false;
                          retry_after := Some (Calgary.milliseconds (seconds * 1000)) |};
     Calgary.axios_duration _ _ := 50%float |}.

(** ** Records *)

Definition licence (busid : option string) (tradename : string)
    (position : option (float * float)) : SocrataRecord.t :=
  {| SocrataRecord.getbusid := busid;
     SocrataRecord.tradename := Some tradename;
     SocrataRecord.address := Some "123 Main St SW";
     SocrataRecord.licencetypes := Some "Food Service";
     SocrataRecord.jobstatusdesc := Some "Active";
     SocrataRecord.first_iss_dt := Some "2023-01-15";
     SocrataRecord.point :=
       (fun c => {| Point.type := "Point"; Point.coordinates := Some c |}) <$> position;
     SocrataRecord.extra := [("owner_name", JStr "Jane Doe")] |}.

(** About 400 m and 1200 m north of the centre of Calgary, and a record
    with neither identifier nor position. *)
Definition near : SocrataRecord.t :=
  licence (Some "BL-001") "Near Business" (Some ((-114.0719)%float, 51.0483%float)).

Definition far : SocrataRecord.t :=
  licence (Some "BL-002") "Far Business" (Some ((-114.0719)%float, 51.0555%float)).

Definition unplaced : SocrataRecord.t := licence None "Unplaced Business" None.

Definition centre : RadiusQuery.t :=
  {| RadiusQuery.lat := 51.0447%float; RadiusQuery.lng := (-114.0719)%float;
     RadiusQuery.radiusMetres := 1000%float; RadiusQuery.limit := Some 10 |}.

Definition downtown : BoundingBox.t :=
  {| BoundingBox.north := 51.1%float; BoundingBox.south := 51%float;
     BoundingBox.east := (-113.9)%float; BoundingBox.west := (-114.1)%float |}.

(** [fullRecord] of the transformer's tests. *)
Definition fullRecord : BusinessRecord.t :=
  {| BusinessRecord.id := "BL-001";
     BusinessRecord.name := "Acme Coffee Co";
     BusinessRecord.category := "Food Service";
     BusinessRecord.licenseType := "Business";
     BusinessRecord.status := "Active";
     BusinessRecord.lat := Some 51.0447%float;
     BusinessRecord.lng := Some (-114.0719)%float;
     BusinessRecord.issueDate := Some "2023-01-15";
     BusinessRecord.province := "AB";
     BusinessRecord.source := "calgary";
     BusinessRecord._raw :=
       Some [("owner_name", JStr "Jane Doe"); ("business_address", JStr "123 Main St SW");
             ("business_phone", JStr "403-555-0100"); ("license_number", JStr "BL-001")] |}.

(** ** Cache backends *)

Definition emptyStore : CacheService.InMemoryBackend :=
  {| CacheService.store := ∅; CacheService.now := 0 |}.

Definition freshCache : CacheService.CacheService CacheService.InMemoryBackend :=
  {| CacheService.backend := emptyStore; CacheService.ttl := 3600;
     CacheService.usingRedis := false; CacheService.console := [] |}.

(** A Redis client whose connection is closed: every command rejects. *)
#[export] Instance closedRedis : CacheService.RedisClient unit := {
  CacheService.redis_get _ := throw (OtherError "Connection is closed.");
  CacheService.redis_setex _ _ _ := throw (OtherError "Connection is closed.");
  CacheService.redis_del _ := throw (OtherError "Connection is closed.")
}.

(** The service after Redis was selected at start-up and an error event
    cleared [ready]. *)
Definition erroredRedis : CacheService.CacheService (CacheService.RedisBackend unit) :=
  {| CacheService.backend := {| CacheService.client := Some tt; CacheService.ready := false |};
     CacheService.ttl := 3600; CacheService.usingRedis := true; CacheService.console := [] |}.

(** The same service while [ready] is still set. *)
Definition closedRedisService : CacheService.CacheService (CacheService.RedisBackend unit) :=
  {| CacheService.backend := {| CacheService.client := Some tt; CacheService.ready := true |};
     CacheService.ttl := 3600; CacheService.usingRedis := true; CacheService.console := [] |}.

(** ** Requests *)

Definition downtownQuery : list (string * string) :=
  [("north", "51.1"); ("south", "51"); ("east", "-113.9"); ("west", "-114.1")].

Definition downtownData : Routes.BboxData :=
  {| Routes.north := 51.1%float; Routes.south := 51%float; Routes.east := (-113.9)%float;
     Routes.west := (-114.1)%float; Routes.limit := 500 |}.

(** Validators for the examples: they accept the one query the examples
    send, and the one token. *)
#[export] Instance collaborators : Routes.Collaborators := {
  Routes.bboxSchema_safeParse q :=
    if decide (q = downtownQuery) then inr downtownData else inl (JStr "invalid");
  Routes.nearbySchema_safeParse q := inl (JStr "invalid");
  Routes.staff_bboxSchema_safeParse q :=
    if decide (q = downtownQuery) then inr downtownData else inl (JStr "invalid");
  Routes.jwt_verify token :=
    if decide (token = "staff-token") then Routes.Verified "staff" else Routes.InvalidToken
}.

Definition publicRequest : Routes.HttpRequest :=
  {| Routes.query := downtownQuery; Routes.authorization := None |}.

(** The server with an empty in-memory cache in front of an upstream. *)
Definition server : Routes.World Calgary.State CacheService.InMemoryBackend :=
  {| Routes.adapter := Calgary.initial; Routes.cacheService := freshCache;
     Routes.errors := [] |}.

End Examples.

(* ===================================================================== *)
(** * Further observations                                                *)
(* ===================================================================== *)

Module Clock.

(** Time passing: the clock the in-memory store reads moves on by [ms]
    milliseconds. *)
Definition elapse (ms : Z) (s : CacheService.CacheService CacheService.InMemoryBackend)
    : CacheService.CacheService CacheService.InMemoryBackend :=
  {| CacheService.backend :=
       {| CacheService.store := CacheService.store (CacheService.backend s);
          CacheService.now := CacheService.now (CacheService.backend s) + ms |};
     CacheService.ttl := CacheService.ttl s;
     CacheService.usingRedis := CacheService.usingRedis s;
     CacheService.console := CacheService.console s |}.

(** The time to live [set] hands to the backend. *)
Definition effectiveTtl {B} (ttlSeconds : option Z) (s : CacheService.CacheService B) : Z :=
  match ttlSeconds with Some t => t | None => CacheService.ttl s end.

End Clock.

Module RouteObservations.
Import Routes.

Section Observations.
Context {E : JsEngine} {C : Collaborators}.

(** The flattened error of a request that is refused by the schema of its
    route (on the staff route, after the two middlewares let it pass). *)
Definition validationError (route : Route) (req : HttpRequest) : option JsValue :=
  match route with
  | PublicBusinesses =>
      match bboxSchema_safeParse (query req) with inl details => Some details | inr _ => None end
  | PublicNearby =>
      match nearbySchema_safeParse (query req) with inl details => Some details | inr _ => None end
  | StaffBusinesses =>
      match requireStaff req, staff_bboxSchema_safeParse (query req) with
      | None, inl details => Some details
      | _, _ => None
      end
  end.

(** What each route answers with, and the time to live it caches it for. *)
Definition projection (route : Route) : list BusinessRecord.t -> JsValue :=
  match route with
  | PublicBusinesses | PublicNearby => publicJSON
  | StaffBusinesses => staffJSON
  end.

Definition cacheTtl (route : Route) : option Z :=
  match route with
  | PublicBusinesses | PublicNearby => None
  | StaffBusinesses => Some 900
  end.

(** The bearer token of a request, when its Authorization header has one. *)
Definition bearerToken (req : HttpRequest) : option string :=
  match authorization req with
  | Some authHeader =>
      if String.prefix "Bearer " authHeader
      then Some (String.substring 7 (String.length authHeader - 7) authHeader)
      else None
  | None => None
  end.
End Observations.

End RouteObservations.

Module WorldClock.

(** Time passing between two requests, for a server on the in-memory cache. *)
Definition elapse {A} (ms : Z) (w : Routes.World A CacheService.InMemoryBackend)
    : Routes.World A CacheService.InMemoryBackend :=
  {| Routes.adapter := Routes.adapter w;
     Routes.cacheService := Clock.elapse ms (Routes.cacheService w);
     Routes.errors := Routes.errors w |}.

End WorldClock.

Module AdapterObservations.

(** The upstream records that carry no [getbusid]. *)
Definition anonymous (data : list SocrataRecord.t) : list SocrataRecord.t :=
  List.filter (fun r => match SocrataRecord.getbusid r with None => true | Some _ => false end)
              data.

(** The identifiers given to the records without [getbusid], in order. *)
Fixpoint generatedIds (data : list SocrataRecord.t) (recs : list BusinessRecord.t)
    : list string :=
  match data, recs with
  | r :: data', b :: recs' =>
      match SocrataRecord.getbusid r with
      | None => BusinessRecord.id b :: generatedIds data' recs'
      | Some _ => generatedIds data' recs'
      end
  | _, _ => []
  end.

End AdapterObservations.

(** Vocabulary for the parameters of a cache key. *)
Module KeyObservations.
(** A value that is not an object or an array: what the routes put in the
    parameters of a key (numbers, a string, undefined). *)
Definition primitive (v : JsValue) : bool :=
  match v with
  | JArr _ | JObj _ => false
  | _ => true
  end.

Definition flat (params : JsObject) : Prop :=
  Forall (fun kv => primitive kv.2 = true) params.
End KeyObservations.

(** Further data for the examples. *)
Module Scenarios.

(** A request with no query string. *)
Definition bareRequest : Routes.HttpRequest :=
  {| Routes.query := []; Routes.authorization := None |}.

(** The query of the examples, sent with the token the examples verify. *)
Definition staffRequest : Routes.HttpRequest :=
  {| Routes.query := Examples.downtownQuery;
     Routes.authorization := Some "Bearer staff-token" |}.

(** The key of [Examples.publicRequest] on the bounding-box route. *)
Definition downtownKey : string :=
  CacheService.buildKey (E := Examples.engine) "calgary" "bbox"
    (Routes.bboxParams Examples.downtownData).

(** The server of the examples with an answer already cached under that key. *)
Definition warmServer : Routes.World Calgary.State CacheService.InMemoryBackend :=
  {| Routes.adapter := Calgary.initial;
     Routes.cacheService :=
       (CacheService.set (E := Examples.engine) (CB := CacheService.InMemory_CacheBackend)
          downtownKey (JArr []) None Examples.freshCache).2;
     Routes.errors := [] |}.

(** Three licences within 400 m of the centre of Calgary, and the radius
    query of the examples with the limit -1. *)
Definition neighbours : list SocrataRecord.t :=
  [ Examples.near;
    Examples.licence (Some "BL-003") "Next Door" (Some ((-114.0719)%float, 51.0470%float));
    Examples.licence (Some "BL-004") "Across the Street"
      (Some ((-114.0719)%float, 51.0460%float)) ].

Definition fromTheEnd : RadiusQuery.t :=
  {| RadiusQuery.lat := 51.0447%float; RadiusQuery.lng := (-114.0719)%float;
     RadiusQuery.radiusMetres := 1000%float; RadiusQuery.limit := Some (-1) |}.

(** The parameters of the categories route for a request without an area,
    and what is left of them without the undefined one. *)
Definition categoriesParams : JsObject := [("area", JUndefined); ("limit", JNum 100)].
Definition limitOnly : JsObject := [("limit", JNum 100)].

End Scenarios.

(* ===================================================================== *)
(** * Theorems                                                            *)
(* ===================================================================== *)

Ltac unfold_M := unfold bind, ret, throw, try_catch, modify, gets, zoom in *.

(** ** Strings *)

Lemma string_length_app (a b : string) :
  String.length (a ++ b) = (String.length a + String.length b)%nat.
Proof.
  induction a as [|c a IH]; [done|].
  change (S (String.length (a ++ b)) = S (String.length a + String.length b)).
  by rewrite IH.
Qed.

Lemma string_app_inv_tail (a b t : string) : a ++ t = b ++ t -> a = b.
Proof.
  revert b. induction a as [|c a IH]; intros [|c' b] Heq.
  - done.
  - apply (f_equal String.length) in Heq. rewrite !string_length_app in Heq. simpl in Heq. lia.
  - apply (f_equal String.length) in Heq. rewrite !string_length_app in Heq. simpl in Heq. lia.
  - change (String c (a ++ t) = String c' (b ++ t)) in Heq.
    injection Heq as -> Heq. f_equal. by apply IH.
Qed.

Lemma toString16_inj (a b : Z) : 0 <= a -> 0 <= b -> toString16 a = toString16 b -> a = b.
Proof.
  assert (Hnil : forall n, N.to_hex_uint n <> Hexadecimal.Nil).
  { intros n E. pose proof (HexadecimalN.Unsigned.of_to n) as Hn. rewrite E in Hn.
    simpl in Hn. subst n. discriminate E. }
  intros Ha Hb Heq. unfold toString16 in Heq.
  apply (f_equal HexadecimalString.NilZero.uint_of_string) in Heq.
  rewrite !HexadecimalString.NilZero.usu in Heq by apply Hnil.
  injection Heq as Heq. apply HexadecimalN.Unsigned.to_uint_inj in Heq. lia.
Qed.

(** ** Cache keys *)


(** The serialisation reads nothing of the engine but its printing of
    numbers. *)
Lemma SerializeJSONProperty_engine (E1 E2 : JsEngine) (K : option (list string)) (v : JsValue) :
  (forall x, Number_toString (JsEngine := E1) x = Number_toString (JsEngine := E2) x) ->
  SerializeJSONProperty (E := E1) K v = SerializeJSONProperty (E := E2) K v.
Proof.
  intros Hprint. induction v as [| |b|n|s|items IH|props IH] using JsValue_nested_ind; simpl.
  - done.
  - done.
  - done.
  - unfold SerializeNumber. by rewrite Hprint.
  - done.
  - assert (Hitems : List.map (fun x => match SerializeJSONProperty (E := E1) K x with
                                          | Some s => s | None => "null" end) items
                      = List.map (fun x => match SerializeJSONProperty (E := E2) K x with
                                          | Some s => s | None => "null" end) items).
    { induction IH as [|x l Hx _ IHl]; simpl; [done|]. by rewrite Hx, IHl. }
    by rewrite Hitems.
  - assert (Hdone : List.map (fun kv : string * JsValue =>
                                let (k, x) := kv in (k, SerializeJSONProperty (E := E1) K x)) props
                     = List.map (fun kv : string * JsValue =>
                                let (k, x) := kv in (k, SerializeJSONProperty (E := E2) K x)) props).
    { induction IH as [|[k x] l Hx _ IHl]; simpl; [done|]. simpl in Hx. by rewrite Hx, IHl. }
    by rewrite Hdone.
Qed.

Section KeyFacts.
Context {E : JsEngine}.
Import CacheService.

Lemma PropertyList_fold (acc l : list string) :
  NoDup (acc ++ l)%list ->
  fold_left (fun acc x => if bool_decide (x ∈ acc) then acc else (acc ++ [x])%list) l acc
  = (acc ++ l)%list.
Proof.
  revert acc. induction l as [|x l IH]; intros acc Hnd; simpl.
  - by rewrite app_nil_r.
  - rewrite bool_decide_false.
    + rewrite IH; rewrite <- app_assoc; done.
    + apply NoDup_app in Hnd as (_ & Hdis & _). intros Hin. apply (Hdis x Hin). by left.
Qed.

Lemma PropertyList_NoDup (l : list string) : NoDup l -> PropertyList l = l.
Proof. intros. unfold PropertyList. by rewrite PropertyList_fold. Qed.

Lemma Array_sort_Permutation (l1 l2 : list string) :
  l1 ≡ₚ l2 -> Array_sort l1 = Array_sort l2.
Proof.
  intros Hp. unfold Array_sort.
  apply (Sorted_unique String.le); try apply Sorted_merge_sort; try apply _.
  by rewrite !merge_sort_Permutation.
Qed.

Lemma Array_sort_NoDup (l : list string) : NoDup l -> NoDup (Array_sort l).
Proof. intros. unfold Array_sort. by rewrite merge_sort_Permutation. Qed.

(** With distinct keys, the property found under a key does not depend on
    the order of the property list. *)
Lemma find_key_Permutation {V} (k : string) (d1 d2 : list (string * V)) :
  NoDup (List.map fst d1) -> d1 ≡ₚ d2 ->
  List.find (fun kv => String.eqb k (fst kv)) d1 = List.find (fun kv => String.eqb k (fst kv)) d2.
Proof.
  intros Hnd Hp. induction Hp as [|x l l' Hp IH|x y l|l l' l'' Hp1 IH1 Hp2 IH2]; simpl.
  - done.
  - destruct (String.eqb k x.1); [done|]. apply IH. simpl in Hnd.
    by apply NoDup_cons in Hnd as [_ ?].
  - destruct (String.eqb_spec k y.1) as [->|]; [|done].
    destruct (String.eqb_spec y.1 x.1) as [Heq|]; [|done].
    exfalso. simpl in Hnd. apply NoDup_cons in Hnd as [Hnotin _].
    apply Hnotin. rewrite Heq. by left.
  - rewrite IH1 by done. apply IH2.
    assert (List.map fst l ≡ₚ List.map fst l') as Hm by (by apply Permutation_map).
    by rewrite <- Hm.
Qed.

Lemma stable_Permutation (p1 p2 : JsObject) :
  NoDup (Object_keys p1) -> p1 ≡ₚ p2 -> stable p1 = stable p2.
Proof.
  intros Hnd Hp. unfold stable, JSON_stringify. simpl.
  assert (Hkeys : Object_keys p1 ≡ₚ Object_keys p2) by (by apply Permutation_map).
  rewrite <- (Array_sort_Permutation _ _ Hkeys).
  do 4 f_equal. apply map_ext. intros k. unfold member.
  set (g := fun kv : string * JsValue => let (k0, x) := kv in (k0, SerializeJSONProperty _ x)).
  rewrite (find_key_Permutation k (List.map g p1) (List.map g p2));
    [done| |by apply Permutation_map].
  rewrite map_map. erewrite map_ext; [exact Hnd|]. by intros [].
Qed.

Lemma stable_engine (E' : JsEngine) (params : JsObject) :
  (forall x, Number_toString (JsEngine := E) x = Number_toString (JsEngine := E') x) ->
  stable (E := E) params = stable (E := E') params.
Proof.
  intros Hprint. unfold stable, JSON_stringify.
  by rewrite (SerializeJSONProperty_engine E E').
Qed.

(** C5. [buildKey] does not depend on the order in which the parameters
    were inserted: two parameter maps holding the same key/value pairs (each
    key once, as in any object) give the same key, for every source and
    operation. The key is a function of its three arguments: of the engine
    it reads the printing of numbers and nothing else, so no random source
    or other state enters it and a repeated call returns the same key. *)
Theorem buildKey_order_independent (source endpoint : string) (p1 p2 : JsObject) :
  NoDup (Object_keys p1) -> p1 ≡ₚ p2 ->
  buildKey source endpoint p1 = buildKey source endpoint p2 /\
  (forall E' : JsEngine,
      (forall x, Number_toString (JsEngine := E) x = Number_toString (JsEngine := E') x) ->
      buildKey (E := E') source endpoint p1 = buildKey (E := E) source endpoint p2).
Proof.
  intros Hnd Hp. unfold buildKey. split.
  - by rewrite (stable_Permutation p1 p2).
  - intros E' Hprint. by rewrite <- (stable_engine E'), (stable_Permutation p1 p2).
Qed.

(** C6, as the code has it. Two keys differ when only the sources differ,
    when only the operations differ, and when the parameters hash to
    different 32-bit numbers; parameter maps that hash to the same number
    share their key. *)
Theorem buildKey_separates (s1 s2 e1 e2 : string) (p1 p2 : JsObject) :
  (s1 <> s2 /\ e1 = e2 /\ p1 = p2) \/
  (s1 = s2 /\ e1 <> e2 /\ p1 = p2) \/
  (s1 = s2 /\ e1 = e2 /\ paramsHash p1 <> paramsHash p2) ->
  buildKey s1 e1 p1 <> buildKey s2 e2 p2.
Proof.
  unfold buildKey. intros [(Hs & -> & ->)|[(-> & He & ->)|(-> & -> & Hh)]] Heq.
  - apply Hs. by apply string_app_inv_tail in Heq.
  - apply String.app_inj, (String.app_inj ":") in Heq. apply He.
    by apply string_app_inv_tail in Heq.
  - do 4 apply String.app_inj in Heq. apply Hh.
    apply toString16_inj; [apply Z.mod_pos_bound; lia..|done].
Qed.
End KeyFacts.

Lemma buildKey_order_independent_witness :
  CacheService.buildKey (E := Examples.engine) "calgary" "nearby"
    [("lat", JNum 51); ("lng", JNum (-114))]
  = CacheService.buildKey (E := Examples.engine) "calgary" "nearby"
      [("lng", JNum (-114)); ("lat", JNum 51)].
Proof.
  refine (proj1 (buildKey_order_independent (E := Examples.engine) _ _ _ _ _ _)).
  - compute_done.
  - apply perm_swap.
Defined.

Lemma buildKey_separates_witness :
  CacheService.buildKey (E := Examples.engine) "calgary" "bbox" [("north", JNum 51.1)]
  <> CacheService.buildKey (E := Examples.engine) "edmonton" "bbox" [("north", JNum 51.1)].
Proof.
  apply (buildKey_separates (E := Examples.engine)).
  left. repeat split. discriminate.
Defined.

(** C6, as stated, fails: the parameter maps [{area: 'b1'}] and
    [{area: 'cP'}] differ in one value and share their key. *)
Lemma buildKey_collision :
  ~ (forall (E : JsEngine) (source endpoint k : string) (v1 v2 : JsValue) (rest : JsObject),
        v1 <> v2 ->
        CacheService.buildKey source endpoint ((k, v1) :: rest)
        <> CacheService.buildKey source endpoint ((k, v2) :: rest)).
Proof.
  intros Hclaim.
  apply (Hclaim Examples.engine "calgary" "categories" "area" (JStr "b1") (JStr "cP") []).
  - discriminate.
  - vm_compute. reflexivity.
Qed.

(** ** The Calgary adapter *)

Section AdapterFacts.
Context {E : JsEngine} {U : Calgary.Upstream}.
Import Calgary.

(** The last attempt a call may make. *)
Lemma attempt_last (config_timeout : float) (req : Request) (s : State) :
  attempt 0 config_timeout req s
  = (settle (axios_request (length (sent s)) req),
     {| sent := (sent s ++ [req])%list; sleeps := sleeps s;
        uuidCalls := uuidCalls s; randomCalls := randomCalls s |}).
Proof.
  simpl. unfold_M. unfold send. simpl.
  by destruct (axios_request (length (sent s)) req).
Qed.

(** An attempt that may be followed by another. *)
Lemma attempt_next (b : nat) (config_timeout : float) (req : Request) (s : State) :
  attempt (S b) config_timeout req s
  = let sending := {| sent := (sent s ++ [req])%list; sleeps := sleeps s;
                      uuidCalls := uuidCalls s; randomCalls := randomCalls s |} in
    match axios_request (length (sent s)) req with
    | Response data => (Returned data, sending)
    | Failure err =>
        if retryCondition err then
          let delay := exponentialDelay (retries - b) err (Math_random (randomCalls s)) in
          let left := (config_timeout - axios_duration (length (sent s)) req - delay)%float in
          let drawn := {| sent := (sent s ++ [req])%list; sleeps := sleeps s;
                          uuidCalls := uuidCalls s; randomCalls := S (randomCalls s) |} in
          let slept := {| sent := (sent s ++ [req])%list;
                          sleeps := (sleeps s ++ [delay])%list;
                          uuidCalls := uuidCalls s; randomCalls := S (randomCalls s) |} in
          if truthy (JNum config_timeout) then
            if (left <=? 0)%float then (Thrown (AxiosFailure err), drawn)
            else attempt b left req slept
          else attempt b config_timeout req slept
        else (Thrown (AxiosFailure err), sending)
    end.
Proof.
  simpl. unfold_M. unfold send at 1. simpl.
  destruct (axios_request (length (sent s)) req) as [d|e]; [done|].
  destruct (retryCondition e); [|done]. simpl.
  destruct (negb _); [|done]. by destruct (_ <=? _)%float.
Qed.

(** The run of the retry loop, from the [j]-th attempt of a call on: [k]
    attempts are sent in all, every attempt but the last failed retryably
    with time left, and the last one settles the call. *)
Lemma attempt_run (b j n0 r0 : nat) (req : Request) (s : State) :
  (j + b = retries)%nat ->
  length (sent s) = (n0 + j)%nat ->
  randomCalls s = (r0 + j)%nat ->
  exists k : nat,
    (S j <= k <= S j + b)%nat /\
    sent (attempt b (timeoutAt n0 r0 req j) req s).2 = (sent s ++ repeat req (k - j))%list /\
    uuidCalls (attempt b (timeoutAt n0 r0 req j) req s).2 = uuidCalls s /\
    sleeps (attempt b (timeoutAt n0 r0 req j) req s).2 =
      (sleeps s ++ List.map (delayAt n0 r0 req) (seq j (k - 1 - j)))%list /\
    (forall i, (j <= i < k - 1)%nat ->
       retryableAt (n0 + i) req = true /\ timedOutAt n0 r0 req i = false) /\
    ((k < S retries)%nat ->
       retryableAt (n0 + (k - 1)) req = false \/ timedOutAt n0 r0 req (k - 1) = true) /\
    (attempt b (timeoutAt n0 r0 req j) req s).1 = settle (axios_request (n0 + (k - 1)) req).
Proof.
  revert j s. induction b as [|b IH]; intros j s Hjb Hlen Hrand.
  - exists (S j). rewrite attempt_last, Hlen. simpl.
    replace (S j - j)%nat with 1%nat by lia. replace (j - 0 - j)%nat with 0%nat by lia.
    replace (j - 0)%nat with j by lia. simpl. rewrite app_nil_r.
    repeat split; try done; try lia.
  - assert (Hone : forall s',
      sent s' = (sent s ++ [req])%list -> uuidCalls s' = uuidCalls s ->
      sleeps s' = sleeps s ->
      retryableAt (n0 + j) req = false \/ timedOutAt n0 r0 req j = true ->
      attempt (S b) (timeoutAt n0 r0 req j) req s
        = (settle (axios_request (n0 + j) req), s') ->
      exists k : nat,
        (S j <= k <= S j + S b)%nat /\
        sent (attempt (S b) (timeoutAt n0 r0 req j) req s).2
          = (sent s ++ repeat req (k - j))%list /\
        uuidCalls (attempt (S b) (timeoutAt n0 r0 req j) req s).2 = uuidCalls s /\
        sleeps (attempt (S b) (timeoutAt n0 r0 req j) req s).2 =
          (sleeps s ++ List.map (delayAt n0 r0 req) (seq j (k - 1 - j)))%list /\
        (forall i, (j <= i < k - 1)%nat ->
           retryableAt (n0 + i) req = true /\ timedOutAt n0 r0 req i = false) /\
        ((k < S retries)%nat ->
           retryableAt (n0 + (k - 1)) req = false \/ timedOutAt n0 r0 req (k - 1) = true) /\
        (attempt (S b) (timeoutAt n0 r0 req j) req s).1
          = settle (axios_request (n0 + (k - 1)) req)).
    { intros s' Hsent Hu Hsl Hstop Hrun. exists (S j). rewrite Hrun. simpl.
      replace (j - 0)%nat with j by lia.
      replace (S j - j)%nat with 1%nat by lia. replace (j - j)%nat with 0%nat by lia.
      simpl. rewrite app_nil_r. repeat split; try done; try lia. }
    pose proof (attempt_next b (timeoutAt n0 r0 req j) req s) as Hstep.
    rewrite Hlen, Hrand in Hstep. cbv zeta in Hstep.
    assert (Hnext : timeoutAt n0 r0 req (S j) =
              if truthy (JNum (timeoutAt n0 r0 req j))
              then (timeoutAt n0 r0 req j - axios_duration (n0 + j) req
                    - delayAt n0 r0 req j)%float
              else timeoutAt n0 r0 req j) by reflexivity.
    unfold retryableAt at 1 in Hone. unfold timedOutAt at 1 in Hone. rewrite Hnext in Hone.
    destruct (axios_request (n0 + j) req) as [d|e] eqn:Ha.
    { eapply Hone; [| | | |exact Hstep]; try done. by left. }
    destruct (retryCondition e) eqn:Hr.
    2:{ eapply Hone; [| | | |exact Hstep]; try done. by left. }
    assert (Hdelay : exponentialDelay (retries - b) e (Math_random (r0 + j))
                     = delayAt n0 r0 req j).
    { unfold delayAt. rewrite Ha. f_equal. lia. }
    rewrite Hdelay in Hstep.
    assert (Hsame : forall q, (j <= q < S j)%nat ->
              retryableAt (n0 + q) req = true).
    { intros q Hq. replace q with j by lia. unfold retryableAt. by rewrite Ha. }
    assert (Hrec : forall s1,
      sent s1 = (sent s ++ [req])%list -> uuidCalls s1 = uuidCalls s ->
      sleeps s1 = (sleeps s ++ [delayAt n0 r0 req j])%list ->
      randomCalls s1 = S (r0 + j) ->
      timedOutAt n0 r0 req j = false ->
      attempt (S b) (timeoutAt n0 r0 req j) req s
        = attempt b (timeoutAt n0 r0 req (S j)) req s1 ->
      exists k : nat,
        (S j <= k <= S j + S b)%nat /\
        sent (attempt (S b) (timeoutAt n0 r0 req j) req s).2
          = (sent s ++ repeat req (k - j))%list /\
        uuidCalls (attempt (S b) (timeoutAt n0 r0 req j) req s).2 = uuidCalls s /\
        sleeps (attempt (S b) (timeoutAt n0 r0 req j) req s).2 =
          (sleeps s ++ List.map (delayAt n0 r0 req) (seq j (k - 1 - j)))%list /\
        (forall i, (j <= i < k - 1)%nat ->
           retryableAt (n0 + i) req = true /\ timedOutAt n0 r0 req i = false) /\
        ((k < S retries)%nat ->
           retryableAt (n0 + (k - 1)) req = false \/ timedOutAt n0 r0 req (k - 1) = true) /\
        (attempt (S b) (timeoutAt n0 r0 req j) req s).1
          = settle (axios_request (n0 + (k - 1)) req)).
    { intros s1 Hs1 Hu1 Hsl1 Hr1 Hleft Hrun. rewrite Hrun.
      destruct (IH (S j) s1) as (k & Hk & Hsent & Hu & Hsl & Hre & Hstop & Hres).
      { lia. }
      { rewrite Hs1, length_app, Hlen. simpl. lia. }
      { rewrite Hr1. lia. }
      exists k. rewrite Hsent, Hu, Hsl, Hres, Hs1, Hu1, Hsl1.
      repeat split; try lia; try done.
      - rewrite <- app_assoc. f_equal. simpl.
        replace (k - j)%nat with (S (k - S j)) by lia. done.
      - rewrite <- app_assoc. f_equal. simpl.
        replace (k - 1 - j)%nat with (S (k - 1 - S j)) by lia. done.
      - destruct (decide (i = j)) as [->|Hne]; [apply Hsame; lia|]. apply Hre. lia.
      - destruct (decide (i = j)) as [->|Hne]; [done|]. apply Hre. lia. }
    unfold timedOutAt at 1 in Hrec. rewrite Hnext in Hrec.
    destruct (truthy (JNum (timeoutAt n0 r0 req j))) eqn:Ht.
    + destruct (_ <=? 0)%float eqn:Hle.
      * eapply Hone; [| | | |exact Hstep]; try done. by right.
      * eapply Hrec; [| | | | |exact Hstep]; done.
    + eapply Hrec; [| | | | |exact Hstep]; done.
Qed.

Lemma retryCondition_iff (e : AxiosError) :
  retryCondition e = true <->
  isNetworkError e = true \/ response_status e = Some 429 \/
  (exists st, response_status e = Some st /\ 500 <= st).
Proof.
  unfold retryCondition. rewrite !orb_true_iff, bool_decide_eq_true.
  destruct (response_status e) as [st|]; simpl.
  - rewrite Z.leb_le. split.
    + intros [[Hn|Hs]|Hge]; eauto.
    + intros [Hn|[Hs|(st' & Hst' & Hge)]]; [by left; left|by left; right|].
      right. congruence.
  - split.
    + intros [[Hn|Hs]|Hge]; eauto. done.
    + intros [Hn|[Hs|(st' & Hst' & Hge)]]; [by left; left|done..].
Qed.

(** A status from 400 to 499 other than 429 is not retried. *)
Lemma client_error_not_retried (e : AxiosError) (st : Z) :
  response_status e = Some st -> 400 <= st < 500 -> st <> 429 -> retryCondition e = false.
Proof.
  intros Hst Hrange Hne. apply not_true_iff_false. rewrite retryCondition_iff.
  unfold isNetworkError. rewrite Hst.
  intros [Hn|[Hs|(st' & Hst' & Hge)]]; [done|congruence|].
  assert (st' = st) by congruence. lia.
Qed.

(** The delay before each of the three retries, written out. *)
Lemma delayAt_failure (n0 r0 : nat) (req : Request) (j : nat) (e : AxiosError) :
  axios_request (n0 + j) req = Failure e -> (j < 3)%nat ->
  delayAt n0 r0 req j
  = (let calculatedDelay := nth j [200; 400; 800]%float 0%float in
     let delay := Math_max calculatedDelay
                    (match retry_after e with
                     | Some retryAfterMs => Math_max 0 retryAfterMs
                     | None => 0%float
                     end) in
     (delay + delay * 0.2 * Math_random (r0 + j))%float).
Proof.
  intros Ha Hj. unfold delayAt. rewrite Ha. unfold exponentialDelay, retryAfter.
  destruct j as [|[|[|j]]]; [reflexivity..|lia].
Qed.

(** C4, as the code has it. A call through the client makes between one
    and four attempts: the first, and at most three retries; it ends with
    the outcome of its last attempt. An attempt is followed by another
    exactly when fewer than three retries were made, it failed with a
    network-level error, a 429 or a status of 500 or above, and the timeout
    of the call (10 s, less the duration of every failed attempt and every
    delay so far) is not used up by that attempt and the delay that
    follows. The delay before retry 1, 2, 3 is the larger of 200, 400,
    800 ms and the Retry-After of the failure, plus a random share of up to
    a fifth of it. A first failure with a status from 400 to 499 other than
    429 ends the call after that one attempt. *)
Theorem client_get_retry_policy (req : Request) (s : State) :
  let n0 := length (sent s) in
  let r0 := randomCalls s in
  let retryable := fun e : AxiosError =>
    isNetworkError e = true \/ response_status e = Some 429 \/
    (exists st, response_status e = Some st /\ 500 <= st) in
  let delayOf := fun (j : nat) (e : AxiosError) =>
    let calculatedDelay := nth j [200; 400; 800]%float 0%float in
    let delay := Math_max calculatedDelay
                   (match retry_after e with
                    | Some retryAfterMs => Math_max 0 retryAfterMs
                    | None => 0%float
                    end) in
    (delay + delay * 0.2 * Math_random (r0 + j))%float in
  exists k : nat,
    (1 <= k <= 4)%nat /\
    sent (client_get req s).2 = (sent s ++ repeat req k)%list /\
    (client_get req s).1 = settle (axios_request (n0 + (k - 1)) req) /\
    length (sleeps (client_get req s).2) = (length (sleeps s) + (k - 1))%nat /\
    (forall j, (j < k - 1)%nat ->
       exists e,
         axios_request (n0 + j) req = Failure e /\ retryable e /\
         timedOutAt n0 r0 req j = false /\
         sleeps (client_get req s).2 !! (length (sleeps s) + j)%nat = Some (delayOf j e)) /\
    ((k < 4)%nat ->
       forall e, axios_request (n0 + (k - 1)) req = Failure e ->
                 ~ retryable e \/ timedOutAt n0 r0 req (k - 1) = true) /\
    timeoutAt n0 r0 req 0 = 10000%float /\
    (forall j e, (j < 3)%nat -> axios_request (n0 + j) req = Failure e ->
       let left := timeoutAt n0 r0 req j in
       timeoutAt n0 r0 req (S j)
       = (if truthy (JNum left)
          then (left - axios_duration (n0 + j) req - delayOf j e)%float
          else left) /\
       timedOutAt n0 r0 req j
       = truthy (JNum left) &&
         (left - axios_duration (n0 + j) req - delayOf j e <=? 0)%float) /\
    (forall e st, axios_request n0 req = Failure e ->
                  response_status e = Some st -> 400 <= st < 500 -> st <> 429 ->
                  k = 1%nat /\ (client_get req s).1 = Thrown (AxiosFailure e)).
Proof.
  intros n0 r0 retryable delayOf. unfold client_get.
  destruct (attempt_run retries 0 n0 r0 req s)
    as (k & Hk & Hsent & _ & Hsl & Hre & Hstop & Hout);
    [done|unfold n0; lia|unfold r0; lia|].
  change (timeoutAt n0 r0 req 0) with timeout in *.
  unfold retries in *. exists k.
  assert (Hfail : forall j, retryableAt (n0 + j) req = true ->
            exists e, axios_request (n0 + j) req = Failure e /\ retryable e).
  { intros j Hr. unfold retryableAt in Hr.
    destruct (axios_request (n0 + j) req) as [d|e]; [done|].
    exists e. split; [done|]. by apply retryCondition_iff. }
  assert (Hone : forall e st, axios_request n0 req = Failure e ->
                   response_status e = Some st -> 400 <= st < 500 -> st <> 429 -> k = 1%nat).
  { intros e st Ha Hst Hrange Hne.
    destruct (decide (k = 1%nat)) as [|Hk1]; [done|]. exfalso.
    destruct (Hre 0%nat ltac:(lia)) as [Hr _].
    unfold retryableAt in Hr. rewrite Nat.add_0_r, Ha in Hr.
    by rewrite (client_error_not_retried e st) in Hr. }
  split; [lia|]. split; [by rewrite Hsent, Nat.sub_0_r|]. split; [done|].
  split; [rewrite Hsl, length_app, length_map, length_seq; lia|].
  split.
  { intros j Hj. destruct (Hre j ltac:(lia)) as [Hr Hleft].
    destruct (Hfail j Hr) as (e & Ha & He). exists e. repeat split; try done.
    rewrite Hsl, lookup_app_r by lia.
    replace (length (sleeps s) + j - length (sleeps s))%nat with j by lia.
    rewrite list_lookup_fmap, lookup_seq_lt by lia. simpl.
    f_equal. apply delayAt_failure; [done|lia]. }
  split.
  { intros Hlt e Ha. destruct (Hstop ltac:(lia)) as [Hr|Hleft]; [|by right].
    left. intros He. apply retryCondition_iff in He.
    unfold retryableAt in Hr. rewrite Ha in Hr. congruence. }
  split; [reflexivity|]. split.
  { intros j e Hj Ha. set (left := timeoutAt n0 r0 req j).
    assert (Hnext : timeoutAt n0 r0 req (S j)
              = if truthy (JNum left)
                then (left - axios_duration (n0 + j) req - delayOf j e)%float else left).
    { change (timeoutAt n0 r0 req (S j))
        with (if truthy (JNum left)
              then (left - axios_duration (n0 + j) req - delayAt n0 r0 req j)%float
              else left).
      by rewrite (delayAt_failure n0 r0 req j e Ha Hj). }
    split; [done|]. unfold timedOutAt. fold left. rewrite Hnext.
    by destruct (truthy (JNum left)). }
  intros e st Ha Hst Hrange Hne. pose proof (Hone e st Ha Hst Hrange Hne) as ->.
  split; [done|]. rewrite Hout. simpl. by rewrite Nat.add_0_r, Ha.
Qed.

Lemma toBusinessRecord_returns (r : SocrataRecord.t) (s : State) :
  exists b s', toBusinessRecord r s = (Returned b, s') /\ normalises r b /\
               sent s' = sent s /\ sleeps s' = sleeps s /\
               (uuidCalls s <= uuidCalls s')%nat.
Proof.
  unfold toBusinessRecord, normalises, positionOf. unfold_M. unfold randomUUID.
  destruct r as [gid tn ad lt js fd pt ex]; simpl.
  destruct gid as [i|]; simpl; eexists _, _; (split; [reflexivity|]); simpl;
    destruct pt as [[ty [[c0 c1]|]]|]; simpl; repeat split; try done; try lia; congruence.
Qed.

(** Normalising a response never throws, keeps one record per item and
    sends nothing. *)
Lemma mapM_toBusinessRecord (data : list SocrataRecord.t) (s : State) :
  exists recs s', mapM toBusinessRecord data s = (Returned recs, s') /\
                  Forall2 normalises data recs /\
                  sent s' = sent s /\ sleeps s' = sleeps s.
Proof.
  revert s. induction data as [|r data IH]; intros s; simpl.
  - exists [], s. unfold_M. repeat split; constructor.
  - destruct (toBusinessRecord_returns r s) as (b & s1 & Hb & Hn & Hs1 & Hl1 & _).
    destruct (IH s1) as (recs & s2 & Hm & Hf & Hs2 & Hl2).
    exists (b :: recs), s2. unfold bind at 1. rewrite Hb. unfold bind at 1. rewrite Hm.
    unfold ret. repeat split; [by constructor|congruence..].
Qed.

(** C9. When the upstream answers a bounding-box request, the caller gets
    one record per record of the response, in order: a record without a
    position comes back with [lat] and [lng] null, one with a position
    with its coordinates, each with its payload kept. *)
Theorem fetchByBoundingBox_passes_every_record
    (bbox : BoundingBox.t) (limit : option Z) (s s1 : State) (data : list SocrataRecord.t) :
  client_get (bboxRequest bbox limit) s = (Returned data, s1) ->
  exists recs s2,
    Calgary_fetchByBoundingBox bbox limit s = (Returned recs, s2) /\
    length recs = length data /\
    Forall2 (fun r b =>
               (positionOf r = None ->
                BusinessRecord.lat b = None /\ BusinessRecord.lng b = None) /\
               (forall c0 c1, positionOf r = Some (c0, c1) ->
                BusinessRecord.lat b = Some c1 /\ BusinessRecord.lng b = Some c0) /\
               BusinessRecord._raw b = Some (SocrataRecord.toObject r))
            data recs.
Proof.
  intros Hget. destruct (mapM_toBusinessRecord data s1) as (recs & s2 & Hm & Hf & _).
  exists recs, s2. unfold Calgary_fetchByBoundingBox, bind. rewrite Hget, Hm.
  split; [done|]. split; [symmetry; by eapply Forall2_length|].
  eapply Forall2_impl; [exact Hf|].
  intros r b (Hlat & Hlng & _ & _ & _ & _ & _ & _ & _ & _ & Hraw).
  repeat split; try done; intros; rewrite ?Hlat, ?Hlng; by simplify_option_eq.
Qed.

Lemma Array_slice0_length {A} (l : list A) (e : Z) :
  0 <= e -> Z.of_nat (length (Array_slice0 l e)) <= e.
Proof.
  intros He. unfold Array_slice0. rewrite length_take.
  destruct (e <? 0) eqn:Hlt; lia.
Qed.

Lemma Array_slice0_sublist {A} (l : list A) (e : Z) : sublist (Array_slice0 l e) l.
Proof. unfold Array_slice0. apply sublist_take. Qed.

Lemma List_filter_sublist {A} (f : A -> bool) (l : list A) : sublist (List.filter f l) l.
Proof.
  induction l as [|x l IH]; simpl; [constructor|].
  destruct (f x); by constructor.
Qed.

(** C2, as the code has it. When the upstream answers the bounding-box
    request of a radius query, every record [fetchByRadius] returns has a
    latitude and a longitude and lies within [radiusMetres] of the query
    point by the haversine formula on a sphere of radius 6,371,000 m, written
    out below; the list is a sublist of the normalised response. Its length
    is at most [limit] when [limit] is not negative; a negative [limit]
    counts from the end: the last [-limit] of the records within the
    circle are dropped. *)
Theorem fetchByRadius_within_circle
    (query : RadiusQuery.t) (s s1 : State) (data : list SocrataRecord.t) :
  let lat := RadiusQuery.lat query in
  let lng := RadiusQuery.lng query in
  let radiusMetres := RadiusQuery.radiusMetres query in
  let limit := default SOCRATA_PAGE_LIMIT (RadiusQuery.limit query) in
  let distance := fun rlat rlng : float =>
    let dLat := ((rlat - lat) * Math_PI / 180)%float in
    let dLng := ((rlng - lng) * Math_PI / 180)%float in
    let a := (Number_exponentiate (Math_sin (dLat / 2)) 2 +
              Math_cos (lat * Math_PI / 180) * Math_cos (rlat * Math_PI / 180) *
              Number_exponentiate (Math_sin (dLng / 2)) 2)%float in
    (6371000 * 2 * Math_atan2 (Math_sqrt a) (Math_sqrt (1 - a)))%float in
  let within := fun b : BusinessRecord.t =>
    match BusinessRecord.lat b, BusinessRecord.lng b with
    | Some rlat, Some rlng => (distance rlat rlng <=? radiusMetres)%float
    | _, _ => false
    end in
  client_get (bboxRequest (radiusBox lat lng radiusMetres) (Some (limit * 2))) s
    = (Returned data, s1) ->
  exists recs s2,
    Calgary_fetchByRadius query s = (Returned recs, s2) /\
    Forall (fun b => exists rlat rlng,
                BusinessRecord.lat b = Some rlat /\ BusinessRecord.lng b = Some rlng /\
                (distance rlat rlng <=? radiusMetres)%float = true) recs /\
    (0 <= limit -> Z.of_nat (length recs) <= limit) /\
    (exists all,
        Forall2 normalises data all /\ sublist recs all /\
        (limit < 0 ->
         Z.of_nat (length recs)
         = Z.max (Z.of_nat (length (List.filter within all)) + limit) 0)).
Proof.
  intros lat lng radiusMetres limit distance within Hget.
  destruct (mapM_toBusinessRecord data s1) as (all & s2 & Hm & Hf & _).
  assert (Hwithin : forall b, inCircle lat lng radiusMetres b = within b) by reflexivity.
  eexists _, s2. split.
  { unfold Calgary_fetchByRadius, Calgary_fetchByBoundingBox, bind.
    fold lat lng radiusMetres limit. rewrite Hget, Hm. reflexivity. }
  split; [|split].
  - unfold Array_slice0. apply Forall_take. apply Forall_forall. intros b Hb.
    apply list_elem_of_In, filter_In in Hb as [_ Hb]. rewrite Hwithin in Hb.
    unfold within in Hb.
    destruct (BusinessRecord.lat b) as [rlat|], (BusinessRecord.lng b) as [rlng|];
      try discriminate. by exists rlat, rlng.
  - by apply Array_slice0_length.
  - exists all. split; [done|]. split.
    + etrans; [apply Array_slice0_sublist|apply List_filter_sublist].
    + intros Hneg. rewrite (filter_ext _ _ Hwithin). unfold Array_slice0.
      replace (limit <? 0) with true by (symmetry; apply Z.ltb_lt; lia).
      rewrite length_take. lia.
Qed.

(** C3. [fetchByRadius] asks [fetchByBoundingBox] for the box whose
    latitude edges are [lat ± radiusMetres / 111320] and whose longitude
    edges are [lng ± (radiusMetres / 111320) / cos(lat * PI / 180)], with
    twice the requested limit; every request it sends upstream carries that
    box and that limit. *)
Theorem fetchByRadius_bounding_box (query : RadiusQuery.t) (s : State) :
  let lat := RadiusQuery.lat query in
  let lng := RadiusQuery.lng query in
  let radiusMetres := RadiusQuery.radiusMetres query in
  let limit := default SOCRATA_PAGE_LIMIT (RadiusQuery.limit query) in
  let bbox :=
    {| BoundingBox.north := (lat + radiusMetres / 111320)%float;
       BoundingBox.south := (lat - radiusMetres / 111320)%float;
       BoundingBox.east := (lng + radiusMetres / 111320 / Math_cos (lat * Math_PI / 180))%float;
       BoundingBox.west := (lng - radiusMetres / 111320 / Math_cos (lat * Math_PI / 180))%float
    |} in
  let fetchLimit := limit * 2 in
  let request := {| p_where := within_box bbox; p_limit := fetchLimit;
                    p_order := "FIRST_ISS_DT DESC" |} in
  2 * limit <= fetchLimit /\
  Calgary_fetchByRadius query s =
    (let! records := Calgary_fetchByBoundingBox bbox (Some fetchLimit) in
     ret (Array_slice0 (List.filter (inCircle lat lng radiusMetres) records) limit)) s /\
  (exists k : nat, (1 <= k <= 4)%nat /\
     sent (Calgary_fetchByRadius query s).2 = (sent s ++ repeat request k)%list).
Proof.
  intros lat lng radiusMetres limit bbox fetchLimit request.
  split; [unfold fetchLimit; lia|]. split; [reflexivity|].
  unfold Calgary_fetchByRadius. fold lat lng radiusMetres limit.
  change (radiusBox lat lng radiusMetres) with bbox.
  unfold Calgary_fetchByBoundingBox, client_get.
  change (bboxRequest bbox (Some (limit * 2))) with request.
  destruct (attempt_run retries 0 (length (sent s)) (randomCalls s) request s)
    as (k & Hk & Hsent & _); [done|lia|lia|].
  change (timeoutAt (length (sent s)) (randomCalls s) request 0) with timeout in Hsent.
  rewrite Nat.sub_0_r in Hsent.
  exists k. split; [unfold retries in Hk; lia|].
  unfold bind at 1 2.
  destruct (attempt retries timeout request s) as [[data|e] s1] eqn:Ha; simpl in *.
  - destruct (mapM_toBusinessRecord data s1) as (all & s2 & Hm & _ & Hs2 & _).
    rewrite Hm. simpl. congruence.
  - done.
Qed.

(** C10. Normalising a record that carries [getbusid] gives the same
    BusinessRecord every time and draws nothing; normalising a record
    without it draws the next UUID for the identifier, so that two
    normalisations in a row give different identifiers (the generator never
    repeating a value). *)
Theorem toBusinessRecord_deterministic_iff_getbusid (r : SocrataRecord.t) :
  fresh_uuids ->
  (forall i, SocrataRecord.getbusid r = Some i ->
     forall s1 s2, exists b,
       toBusinessRecord r s1 = (Returned b, s1) /\ toBusinessRecord r s2 = (Returned b, s2)) /\
  (SocrataRecord.getbusid r = None ->
     forall s, exists b1 s1 b2 s2,
       toBusinessRecord r s = (Returned b1, s1) /\
       toBusinessRecord r s1 = (Returned b2, s2) /\
       BusinessRecord.id b1 = crypto_randomUUID (uuidCalls s) /\
       BusinessRecord.id b2 = crypto_randomUUID (uuidCalls s1) /\
       uuidCalls s1 = S (uuidCalls s) /\
       BusinessRecord.id b1 <> BusinessRecord.id b2).
Proof.
  intros Hfresh. split.
  - intros i Hi s1 s2. unfold toBusinessRecord. rewrite Hi. unfold_M.
    destruct s1, s2. eexists. split; reflexivity.
  - intros Hn s. unfold toBusinessRecord. rewrite Hn. unfold_M. unfold randomUUID.
    eexists _, _, _, _. split; [reflexivity|]. split; [reflexivity|]. simpl.
    repeat split. apply Hfresh. lia.
Qed.
End AdapterFacts.

(** The UUIDs of the examples' engine are pairwise distinct. *)
Lemma engine_fresh_uuids : Calgary.fresh_uuids (E := Examples.engine).
Proof.
  intros m n Hmn Heq. simpl in Heq. apply String.app_inj in Heq.
  apply toString16_inj in Heq; lia.
Qed.

Lemma client_get_retry_policy_witness :
  exists k : nat,
    (1 <= k <= 4)%nat /\
    Calgary.sent (Calgary.client_get (E := Examples.engine) (U := Examples.upstreamRejecting)
                    (Calgary.bboxRequest (E := Examples.engine) Examples.downtown None)
                    Calgary.initial).2
    = repeat (Calgary.bboxRequest (E := Examples.engine) Examples.downtown None) k /\
    k = 1%nat.
Proof.
  destruct (client_get_retry_policy (E := Examples.engine) (U := Examples.upstreamRejecting)
              (Calgary.bboxRequest (E := Examples.engine) Examples.downtown None)
              Calgary.initial)
    as (k & Hk & Hsent & _ & _ & _ & _ & _ & _ & Hclient).
  exists k. split; [done|]. split; [done|].
  apply (Hclient (Examples.status 400) 400); [reflexivity|reflexivity|lia|lia].
Defined.

(** C4, as stated, fails: against an upstream that answers 503 every time
    within 50 ms, the client makes four attempts, not three. *)
Lemma client_get_fourth_attempt :
  ~ (forall (E : JsEngine) (U : Calgary.Upstream) (req : Calgary.Request) (s : Calgary.State),
        (length (Calgary.sent (Calgary.client_get req s).2)
         <= length (Calgary.sent s) + 3)%nat).
Proof.
  intros Hclaim.
  specialize (Hclaim Examples.engine Examples.upstreamDown
                (Calgary.bboxRequest (E := Examples.engine) Examples.downtown None)
                Calgary.initial).
  vm_compute in Hclaim. lia.
Qed.

(** The delays of that call, with the random numbers of the examples: a
    tenth above 200, 400 and 800 ms. *)
Example client_get_backoff :
  Calgary.sleeps (Calgary.client_get (E := Examples.engine) (U := Examples.upstreamDown)
                    (Calgary.bboxRequest (E := Examples.engine) Examples.downtown None)
                    Calgary.initial).2
  = [220; 440; 880]%float.
Proof. vm_compute. reflexivity. Qed.

(** A 503 that arrives after 9.9 s leaves no time for a retry: one
    request is sent. *)
Example client_get_slow_upstream :
  let call := Calgary.client_get (E := Examples.engine) (U := Examples.upstreamSlow)
                (Calgary.bboxRequest (E := Examples.engine) Examples.downtown None)
                Calgary.initial in
  call.1 = Thrown (AxiosFailure (Examples.status 503)) /\
  length (Calgary.sent call.2) = 1%nat /\ Calgary.sleeps call.2 = [].
Proof. vm_compute. repeat split. Qed.

(** Retry-After: 1 stretches every delay to a second and a tenth;
    Retry-After: 60 is beyond the timeout, and the first failure ends the
    call. *)
Example client_get_retry_after :
  Calgary.sleeps (Calgary.client_get (E := Examples.engine) (U := Examples.upstreamBusy 1)
                    (Calgary.bboxRequest (E := Examples.engine) Examples.downtown None)
                    Calgary.initial).2
  = [1100; 1100; 1100]%float /\
  length (Calgary.sent
            (Calgary.client_get (E := Examples.engine) (U := Examples.upstreamBusy 60)
               (Calgary.bboxRequest (E := Examples.engine) Examples.downtown None)
               Calgary.initial).2) = 1%nat.
Proof. vm_compute. repeat split. Qed.

(** An upstream that fails twice with 503 and then answers is read on the
    third attempt. *)
Example client_get_third_attempt :
  (Calgary.Calgary_fetchByBoundingBox (E := Examples.engine)
     (U := Examples.upstreamRecovering [Examples.near]) Examples.downtown None
     Calgary.initial).1
  = Returned [ {| BusinessRecord.id := "BL-001";
                  BusinessRecord.name := "Near Business";
                  BusinessRecord.category := "Food Service";
                  BusinessRecord.licenseType := "Food Service";
                  BusinessRecord.status := "Active";
                  BusinessRecord.lat := Some 51.0483%float;
                  BusinessRecord.lng := Some (-114.0719)%float;
                  BusinessRecord.issueDate := Some "2023-01-15";
                  BusinessRecord.province := "AB";
                  BusinessRecord.source := "calgary";
                  BusinessRecord._raw := Some (SocrataRecord.toObject Examples.near) |} ].
Proof. vm_compute. reflexivity. Qed.

Lemma fetchByBoundingBox_passes_every_record_witness :
  exists recs s2,
    Calgary.Calgary_fetchByBoundingBox (E := Examples.engine)
      (U := Examples.upstreamServing [Examples.near; Examples.unplaced])
      Examples.downtown (Some 500) Calgary.initial = (Returned recs, s2) /\
    length recs = length [Examples.near; Examples.unplaced] /\
    Forall2 (fun r b =>
               (Calgary.positionOf r = None ->
                BusinessRecord.lat b = None /\ BusinessRecord.lng b = None) /\
               (forall c0 c1, Calgary.positionOf r = Some (c0, c1) ->
                BusinessRecord.lat b = Some c1 /\ BusinessRecord.lng b = Some c0) /\
               BusinessRecord._raw b = Some (SocrataRecord.toObject r))
            [Examples.near; Examples.unplaced] recs.
Proof.
  eapply (fetchByBoundingBox_passes_every_record (E := Examples.engine)
            (U := Examples.upstreamServing [Examples.near; Examples.unplaced])).
  vm_compute. reflexivity.
Defined.

Lemma fetchByRadius_within_circle_witness :
  exists recs s2,
    Calgary.Calgary_fetchByRadius (E := Examples.engine)
      (U := Examples.upstreamServing [Examples.near; Examples.far; Examples.unplaced])
      Examples.centre Calgary.initial = (Returned recs, s2) /\
    Forall (fun b => exists rlat rlng,
                BusinessRecord.lat b = Some rlat /\ BusinessRecord.lng b = Some rlng /\
                (Calgary.haversine (E := Examples.engine)
                   51.0447 (-114.0719) rlat rlng <=? 1000)%float = true) recs /\
    Z.of_nat (length recs) <= 10.
Proof.
  edestruct (fetchByRadius_within_circle (E := Examples.engine)
               (U := Examples.upstreamServing [Examples.near; Examples.far; Examples.unplaced])
               Examples.centre Calgary.initial)
    as (recs & s2 & Hrun & Hin & Hlen & _).
  - vm_compute. reflexivity.
  - exists recs, s2. split; [exact Hrun|]. split; [exact Hin|]. apply Hlen. vm_compute.
    discriminate.
Defined.

(** C2, as stated, fails: with the limit -1 and three records within the
    circle the adapter returns the first two, more than the limit. *)
Lemma fetchByRadius_negative_limit :
  ~ (forall (E : JsEngine) (U : Calgary.Upstream) (query : RadiusQuery.t)
            (s s2 : Calgary.State) (recs : list BusinessRecord.t),
        Calgary.Calgary_fetchByRadius query s = (Returned recs, s2) ->
        Z.of_nat (length recs)
        <= default Calgary.SOCRATA_PAGE_LIMIT (RadiusQuery.limit query)).
Proof.
  intros Hclaim.
  pose proof (Hclaim Examples.engine (Examples.upstreamServing Scenarios.neighbours)
                Scenarios.fromTheEnd Calgary.initial) as Hbound.
  revert Hbound.
  destruct (Calgary.Calgary_fetchByRadius (E := Examples.engine)
              (U := Examples.upstreamServing Scenarios.neighbours)
              Scenarios.fromTheEnd Calgary.initial) as [[recs|e] s2] eqn:Hrun;
    intros Hbound; vm_compute in Hrun; [|discriminate].
  specialize (Hbound s2 recs eq_refl). injection Hrun as <- _.
  vm_compute in Hbound. by apply Hbound.
Qed.

(** The radius scenario of the specification: of a point 400 m away and a
    point 1200 m away, a query of radius 1000 m returns the first only. *)
Example fetchByRadius_scenario :
  List.map BusinessRecord.id
    match (Calgary.Calgary_fetchByRadius (E := Examples.engine)
             (U := Examples.upstreamServing [Examples.near; Examples.far; Examples.unplaced])
             Examples.centre Calgary.initial).1 with
    | Returned recs => recs
    | Thrown _ => []
    end
  = ["BL-001"].
Proof. vm_compute. reflexivity. Qed.

Lemma toBusinessRecord_deterministic_iff_getbusid_witness :
  (forall i, SocrataRecord.getbusid Examples.unplaced = Some i ->
     forall s1 s2, exists b,
       Calgary.toBusinessRecord (E := Examples.engine) Examples.unplaced s1 = (Returned b, s1) /\
       Calgary.toBusinessRecord (E := Examples.engine) Examples.unplaced s2 = (Returned b, s2)) /\
  (SocrataRecord.getbusid Examples.unplaced = None ->
     forall s, exists b1 s1 b2 s2,
       Calgary.toBusinessRecord (E := Examples.engine) Examples.unplaced s = (Returned b1, s1) /\
       Calgary.toBusinessRecord (E := Examples.engine) Examples.unplaced s1 = (Returned b2, s2) /\
       BusinessRecord.id b1 = crypto_randomUUID (JsEngine := Examples.engine) (Calgary.uuidCalls s) /\
       BusinessRecord.id b2 = crypto_randomUUID (JsEngine := Examples.engine) (Calgary.uuidCalls s1) /\
       Calgary.uuidCalls s1 = S (Calgary.uuidCalls s) /\
       BusinessRecord.id b1 <> BusinessRecord.id b2).
Proof.
  apply (toBusinessRecord_deterministic_iff_getbusid (E := Examples.engine)).
  apply engine_fresh_uuids.
Defined.

(** ** The cache service *)

Section RedisFacts.
Context {E : JsEngine} {R : Type} {RC : CacheService.RedisClient R}.
Import CacheService.

(** Without a client or without [ready], the Redis backend answers every
    operation at once and leaves its state alone. *)
Lemma unavailable_backend (key : string) (value : option string) (t : Z) (b : RedisBackend R) :
  unavailable b = true ->
  backend_get key b = (Returned None, b) /\
  backend_set key value t b = (Returned (), b) /\
  backend_del key b = (Returned (), b).
Proof.
  intros Hu. simpl. unfold RedisBackend_get, RedisBackend_set, RedisBackend_del.
  by rewrite Hu.
Qed.

Lemma unavailable_service (key : string) (value : JsValue) (ttlSeconds : option Z)
    (s : CacheService (RedisBackend R)) :
  unavailable (backend s) = true ->
  get key s = (Returned JNull, s) /\
  set key value ttlSeconds s = (Returned (), s) /\
  invalidate key s = (Returned (), s).
Proof.
  intros Hu. unfold get, set, invalidate, on_backend. unfold_M.
  destruct (unavailable_backend key (JSON_stringify value None)
              (match ttlSeconds with Some t => t | None => ttl s end) (backend s) Hu)
    as (-> & -> & ->).
  by destruct s.
Qed.
End RedisFacts.

Section CacheFacts.
Context {E : JsEngine} {B : Type} {CB : CacheService.CacheBackend B}.
Import CacheService.

(** C7, as the code has it. Whatever the backend does, [get], [set] and
    [invalidate] return to their caller. [get] returns null when the backend
    throws, when the key is absent and when the stored text does not parse,
    and the parsed value otherwise. [set] and [invalidate] record one
    warning when the backend throws and none when it returns. On a Redis
    backend that is unavailable (no client, or not ready) [get] returns null
    and [set] and [invalidate] change nothing: they record no warning
    either. *)
Theorem cache_operations_never_raise
    (key : string) (value : JsValue) (ttlSeconds : option Z) (s : CacheService B) :
  let t := match ttlSeconds with Some t => t | None => ttl s end in
  (exists v s', get key s = (Returned v, s')) /\
  (exists s', set key value ttlSeconds s = (Returned (), s')) /\
  (exists s', invalidate key s = (Returned (), s')) /\
  (forall e b', backend_get key (backend s) = (Thrown e, b') ->
                (get key s).1 = Returned JNull) /\
  (forall b', backend_get key (backend s) = (Returned None, b') ->
              (get key s).1 = Returned JNull) /\
  (forall raw b', backend_get key (backend s) = (Returned (Some raw), b') ->
                  JSON_parse raw = None -> (get key s).1 = Returned JNull) /\
  (forall raw v b', backend_get key (backend s) = (Returned (Some raw), b') ->
                    JSON_parse raw = Some v -> (get key s).1 = Returned v) /\
  (forall e b', backend_set key (JSON_stringify value None) t (backend s) = (Thrown e, b') ->
                console (set key value ttlSeconds s).2
                = (console s ++ ["CacheService.set failed:"])%list) /\
  (forall b', backend_set key (JSON_stringify value None) t (backend s) = (Returned (), b') ->
              console (set key value ttlSeconds s).2 = console s) /\
  (forall e b', backend_del key (backend s) = (Thrown e, b') ->
                console (invalidate key s).2
                = (console s ++ ["CacheService.invalidate failed:"])%list) /\
  (forall b', backend_del key (backend s) = (Returned (), b') ->
              console (invalidate key s).2 = console s) /\
  (forall (R : Type) (RC : RedisClient R) (sr : CacheService (RedisBackend R)),
      unavailable (backend sr) = true ->
      get key sr = (Returned JNull, sr) /\
      set key value ttlSeconds sr = (Returned (), sr) /\
      invalidate key sr = (Returned (), sr)).
Proof.
  intros t. unfold get at 1 2 3 4 5, set at 1 2 3, invalidate at 1 2 3.
  unfold on_backend, console_warn. unfold_M. fold t.
  repeat split.
  - destruct (backend_get key (backend s)) as [[[raw|]|e] b']; simpl; eauto.
    destruct (JSON_parse raw); simpl; eauto.
  - destruct (backend_set _ _ _ _) as [[[]|e] b']; simpl; eauto.
  - destruct (backend_del _ _) as [[[]|e] b']; simpl; eauto.
  - intros e b' ->. done.
  - intros b' ->. done.
  - intros raw b' -> Hp. simpl. by rewrite Hp.
  - intros raw v b' -> Hp. simpl. by rewrite Hp.
  - intros e b' ->. done.
  - intros b' ->. done.
  - intros e b' ->. done.
  - intros b' ->. done.
  - by apply unavailable_service.
  - by apply unavailable_service.
  - by apply unavailable_service.
Qed.
End CacheFacts.

Lemma cache_operations_never_raise_witness :
  (CacheService.get (E := Examples.engine) (CB := CacheService.Redis_CacheBackend (RC := Examples.closedRedis))
     "k" Examples.closedRedisService).1 = Returned JNull /\
  CacheService.console
    (CacheService.set (E := Examples.engine) (CB := CacheService.Redis_CacheBackend (RC := Examples.closedRedis))
       "k" (JArr []) None Examples.closedRedisService).2
  = ["CacheService.set failed:"] /\
  CacheService.console
    (CacheService.invalidate (CB := CacheService.Redis_CacheBackend (RC := Examples.closedRedis))
       "k" Examples.closedRedisService).2
  = ["CacheService.invalidate failed:"].
Proof.
  destruct (cache_operations_never_raise (E := Examples.engine)
              (CB := CacheService.Redis_CacheBackend (RC := Examples.closedRedis)) "k" (JArr []) None
              Examples.closedRedisService)
    as (_ & _ & _ & Hget & _ & _ & _ & Hset & _ & Hdel & _).
  split; [|split].
  - eapply Hget. vm_compute. reflexivity.
  - eapply Hset. vm_compute. reflexivity.
  - eapply Hdel. vm_compute. reflexivity.
Defined.

(** C7, as stated, fails: with the Redis backend unavailable, [set]
    completes and no warning is recorded. *)
Lemma unavailable_set_records_no_warning :
  ~ (forall (E : JsEngine) (R : Type) (RC : CacheService.RedisClient R)
            (key : string) (value : JsValue) (ttlSeconds : option Z)
            (s : CacheService.CacheService (CacheService.RedisBackend R)),
        CacheService.unavailable (CacheService.backend s) = true ->
        (length (CacheService.console s)
         < length (CacheService.console
                     (CacheService.set (CB := CacheService.Redis_CacheBackend)
                        key value ttlSeconds s).2))%nat).
Proof.
  intros Hclaim.
  specialize (Hclaim Examples.engine unit Examples.closedRedis "k" (JArr []) None
                Examples.erroredRedis eq_refl).
  vm_compute in Hclaim. lia.
Qed.

(** ** The route handlers *)

Section RouteFacts.
Context {E : JsEngine} {C : Routes.Collaborators}.
Context {A : Type} {DSA : DataSourceAdapter A} {B : Type} {CB : CacheService.CacheBackend B}.
Import Routes.

Lemma cacheAside_upstream_failure
    (cacheKey : string) (fetch : M A (list BusinessRecord.t))
    (project : list BusinessRecord.t -> JsValue) (ttlSeconds : option Z) (label : string)
    (w : World A B) (v : JsValue) (c' : CacheService.CacheService B)
    (e : JsError) (a' : A) :
  CacheService.get cacheKey (cacheService w) = (Returned v, c') ->
  truthy v = false ->
  fetch (adapter w) = (Thrown e, a') ->
  cacheAside cacheKey fetch project ttlSeconds label w
  = (Returned upstreamUnavailable,
     {| adapter := a'; cacheService := c'; errors := (errors w ++ [label])%list |}).
Proof.
  intros Hget Hmiss Hfail. unfold cacheAside, on_cache, on_adapter, console_error.
  unfold_M. rewrite Hget. simpl. rewrite Hmiss. simpl. rewrite Hfail. reflexivity.
Qed.

(** C8. On each of the three business routes, a request that passes
    validation (and authorisation, on the staff route), whose cache lookup
    gives nothing, and whose adapter call fails, is answered 502 with the
    body [{ error: 'Upstream data source unavailable' }]: an object, never
    an array, empty or not. *)
Theorem upstream_failure_answers_502
    (route : Route) (req : HttpRequest) (w : World A B)
    (cacheKey : string) (fetch : M A (list BusinessRecord.t))
    (v : JsValue) (c' : CacheService.CacheService B) (e : JsError) (a' : A) :
  validQuery route req = Some (cacheKey, fetch) ->
  CacheService.get cacheKey (cacheService w) = (Returned v, c') ->
  truthy v = false ->
  fetch (adapter w) = (Thrown e, a') ->
  exists response w',
    handler route req w = (Returned response, w') /\
    statusCode response = 502 /\
    body response = JObj [("error", JStr "Upstream data source unavailable")] /\
    (forall items, body response <> JArr items).
Proof.
  intros Hvalid Hget Hmiss Hfail.
  assert (Hdone : forall project ttlSeconds label,
             exists response w',
               cacheAside cacheKey fetch project ttlSeconds label w = (Returned response, w') /\
               statusCode response = 502 /\
               body response = JObj [("error", JStr "Upstream data source unavailable")] /\
               (forall items, body response <> JArr items)).
  { intros project ttlSeconds label. exists upstreamUnavailable. eexists.
    split; [by eapply cacheAside_upstream_failure|by repeat split]. }
  destruct route; simpl in *.
  - unfold getBusinesses.
    destruct (bboxSchema_safeParse (query req)) as [|d]; [done|].
    injection Hvalid as <- <-. apply Hdone.
  - unfold getNearby.
    destruct (nearbySchema_safeParse (query req)) as [|d]; [done|].
    injection Hvalid as <- <-. apply Hdone.
  - unfold getStaffBusinesses.
    destruct (requireStaff req); [done|].
    destruct (staff_bboxSchema_safeParse (query req)) as [|d]; [done|].
    injection Hvalid as <- <-. apply Hdone.
Qed.
End RouteFacts.

Lemma upstream_failure_answers_502_witness :
  exists response w',
    Routes.handler (E := Examples.engine) (C := Examples.collaborators)
      (DSA := Calgary.Calgary_DataSourceAdapter (E := Examples.engine) (U := Examples.upstreamDown))
      (CB := CacheService.InMemory_CacheBackend)
      Routes.PublicBusinesses Examples.publicRequest Examples.server
    = (Returned response, w') /\
    Routes.statusCode response = 502 /\
    Routes.body response = JObj [("error", JStr "Upstream data source unavailable")] /\
    (forall items, Routes.body response <> JArr items).
Proof.
  eapply (upstream_failure_answers_502 (E := Examples.engine) (C := Examples.collaborators)
            (DSA := Calgary.Calgary_DataSourceAdapter
                      (E := Examples.engine) (U := Examples.upstreamDown))
            (CB := CacheService.InMemory_CacheBackend)
            Routes.PublicBusinesses Examples.publicRequest Examples.server).
  - vm_compute. reflexivity.
  - vm_compute. reflexivity.
  - reflexivity.
  - vm_compute. reflexivity.
Defined.

(** ** The public projection *)

(** C1. The public projection of a record is an object with the ten
    whitelisted keys and no other, each holding the record's field of that
    name; two records that agree on the ten fields have the same
    projection, and replacing the raw payload by any other changes
    nothing. *)
Theorem toPublicRecord_whitelist_only (r1 r2 : BusinessRecord.t) :
  agreeOnWhitelist r1 r2 ->
  toPublicRecord r1 = toPublicRecord r2 /\
  Object_keys (PublicBusinessRecord.toObject (toPublicRecord r1)) = whitelist /\
  PublicBusinessRecord.toObject (toPublicRecord r1)
  = [("id", JStr (BusinessRecord.id r1)); ("name", JStr (BusinessRecord.name r1));
     ("category", JStr (BusinessRecord.category r1));
     ("licenseType", JStr (BusinessRecord.licenseType r1));
     ("status", JStr (BusinessRecord.status r1));
     ("lat", nullable JNum (BusinessRecord.lat r1));
     ("lng", nullable JNum (BusinessRecord.lng r1));
     ("issueDate", nullable JStr (BusinessRecord.issueDate r1));
     ("province", JStr (BusinessRecord.province r1));
     ("source", JStr (BusinessRecord.source r1))] /\
  (forall payload, toPublicRecord (withRaw r1 payload) = toPublicRecord r1) /\
  (forall payload, toPublicRecords [withRaw r1 payload] = toPublicRecords [r2]).
Proof.
  intros (Hid & Hname & Hcat & Hlt & Hst & Hlat & Hlng & Hdate & Hprov & Hsrc).
  assert (Heq : toPublicRecord r1 = toPublicRecord r2).
  { unfold toPublicRecord. by rewrite Hid, Hname, Hcat, Hlt, Hst, Hlat, Hlng, Hdate, Hprov, Hsrc. }
  repeat split; try done.
  intros payload. simpl. f_equal. by rewrite <- Heq.
Qed.

Lemma toPublicRecord_whitelist_only_witness :
  toPublicRecord Examples.fullRecord
  = toPublicRecord (withRaw Examples.fullRecord (Some [("owner_name", JStr "SENTINEL")])) /\
  Object_keys (PublicBusinessRecord.toObject (toPublicRecord Examples.fullRecord)) = whitelist.
Proof.
  destruct (toPublicRecord_whitelist_only Examples.fullRecord
              (withRaw Examples.fullRecord (Some [("owner_name", JStr "SENTINEL")])))
    as (Heq & Hkeys & _).
  - repeat split.
  - by split.
Defined.

(* ===================================================================== *)
(** * Further theorems                                                    *)
(* ===================================================================== *)

(** ** The in-memory cache *)

Section MemoryCacheFacts.
Context {E : JsEngine}.
Import CacheService Clock.

Lemma memory_get_unfold (key : string) (s : CacheService InMemoryBackend) :
  get key s =
  (match NodeCache_get key (backend s) with
   | None => Returned JNull
   | Some raw => match JSON_parse raw with Some v => Returned v | None => Returned JNull end
   end, s).
Proof.
  unfold get, on_backend. unfold_M. simpl. unfold gets.
  destruct s as [b t u c]; simpl.
  destruct (NodeCache_get key b) as [raw|]; simpl; [|done].
  by destruct (JSON_parse raw).
Qed.

Lemma memory_set_unfold (key : string) (value : JsValue) (ttlSeconds : option Z)
    (s : CacheService InMemoryBackend) :
  set key value ttlSeconds s =
  (Returned (),
   {| backend := NodeCache_set key (JSON_stringify value None) (effectiveTtl ttlSeconds s)
                   (backend s);
      ttl := ttl s; usingRedis := usingRedis s; console := console s |}).
Proof. reflexivity. Qed.

Lemma memory_invalidate_unfold (key : string) (s : CacheService InMemoryBackend) :
  invalidate key s =
  (Returned (),
   {| backend := NodeCache_del key (backend s);
      ttl := ttl s; usingRedis := usingRedis s; console := console s |}).
Proof. reflexivity. Qed.

(** What [get] finds after [set] and a delay within the time to live. *)
Lemma memory_read_back
    (key : string) (value v : JsValue) (text : string) (ttlSeconds : option Z) (ms : Z)
    (s : CacheService InMemoryBackend) :
  JSON_stringify value None = Some text ->
  JSON_parse text = Some v ->
  0 <= ms ->
  effectiveTtl ttlSeconds s = 0 \/ ms <= effectiveTtl ttlSeconds s * 1000 ->
  get key (elapse ms (set key value ttlSeconds s).2)
  = (Returned v, elapse ms (set key value ttlSeconds s).2).
Proof.
  intros Htext Hparse Hms Hlive. rewrite memory_get_unfold. f_equal.
  rewrite memory_set_unfold. simpl.
  unfold NodeCache_get, NodeCache_set. simpl. rewrite lookup_insert_eq. rewrite Htext.
  destruct (effectiveTtl ttlSeconds s =? 0) eqn:Hz; simpl.
  - by rewrite Hparse.
  - apply Z.eqb_neq in Hz. destruct Hlive as [|Hlive]; [done|].
    replace (_ <=? _) with true by (symmetry; apply Z.leb_le; lia).
    rewrite orb_true_r. by rewrite Hparse.
Qed.

(** X1. On the in-memory backend a value that was set is read back, parsed
    from the text it was stored as, for as long as its time to live lasts:
    at once, and after any delay of at most [ttlSeconds] seconds (after any
    delay at all when the time to live is 0). Reading changes nothing. *)
Theorem memory_set_then_get
    (key : string) (value v : JsValue) (text : string) (ttlSeconds : option Z) (ms : Z)
    (s : CacheService InMemoryBackend) :
  JSON_stringify value None = Some text ->
  JSON_parse text = Some v ->
  0 <= ms ->
  effectiveTtl ttlSeconds s = 0 \/ ms <= effectiveTtl ttlSeconds s * 1000 ->
  let stored := elapse ms (set key value ttlSeconds s).2 in
  get key stored = (Returned v, stored).
Proof.
  intros Htext Hparse Hms Hlive stored. unfold stored.
  rewrite memory_get_unfold. f_equal. rewrite memory_set_unfold. simpl.
  unfold NodeCache_get, NodeCache_set. simpl. rewrite lookup_insert_eq, Htext.
  destruct (effectiveTtl ttlSeconds s =? 0) eqn:Hz; simpl.
  - by rewrite Hparse.
  - apply Z.eqb_neq in Hz. destruct Hlive as [|Hlive]; [done|].
    replace (_ <=? _) with true by (symmetry; apply Z.leb_le; lia).
    rewrite orb_true_r. by rewrite Hparse.
Qed.

(** X2. An entry set with a positive time to live is gone once more than
    that many seconds have passed: [get] then returns null, as for a key
    that was never set. *)
Theorem memory_entry_expires
    (key : string) (value : JsValue) (ttlSeconds : option Z) (ms : Z)
    (s : CacheService InMemoryBackend) :
  0 < effectiveTtl ttlSeconds s ->
  0 <= now (backend s) ->
  effectiveTtl ttlSeconds s * 1000 < ms ->
  let stored := elapse ms (set key value ttlSeconds s).2 in
  get key stored = (Returned JNull, stored).
Proof.
  intros Hpos Hnow Hlate stored. rewrite memory_get_unfold. f_equal.
  unfold stored. rewrite memory_set_unfold. simpl.
  unfold NodeCache_get, NodeCache_set. simpl. rewrite lookup_insert_eq.
  replace (effectiveTtl ttlSeconds s =? 0) with false by (symmetry; apply Z.eqb_neq; lia).
  replace (_ =? 0) with false by (symmetry; apply Z.eqb_neq; lia).
  replace (_ <=? _) with false by (symmetry; apply Z.leb_gt; lia).
  done.
Qed.

(** X3. After [invalidate], [get] on that key returns null, whatever was
    stored; a key that is not in the store reads as null too. *)
Theorem memory_invalidate_then_get (key : string) (s : CacheService InMemoryBackend) :
  get key (invalidate key s).2 = (Returned JNull, (invalidate key s).2) /\
  (store (backend s) !! key = None -> get key s = (Returned JNull, s)).
Proof.
  split.
  - rewrite memory_get_unfold. f_equal. rewrite memory_invalidate_unfold. simpl.
    unfold NodeCache_get, NodeCache_del. simpl. by rewrite lookup_delete_eq.
  - intros Hnone. rewrite memory_get_unfold. f_equal. unfold NodeCache_get. by rewrite Hnone.
Qed.

(** X4. [set] and [invalidate] on one key leave what [get] returns for
    every other key as it was. *)
Theorem memory_other_keys_untouched
    (key other : string) (value : JsValue) (ttlSeconds : option Z)
    (s : CacheService InMemoryBackend) :
  other <> key ->
  (get other (set key value ttlSeconds s).2).1 = (get other s).1 /\
  (get other (invalidate key s).2).1 = (get other s).1.
Proof.
  intros Hne. rewrite !memory_get_unfold, memory_set_unfold, memory_invalidate_unfold. simpl.
  unfold NodeCache_get, NodeCache_set, NodeCache_del. simpl.
  rewrite lookup_insert_ne by done. rewrite lookup_delete_ne by done. done.
Qed.
End MemoryCacheFacts.

Lemma memory_set_then_get_witness :
  let stored :=
    Clock.elapse 1000
      (CacheService.set (E := Examples.engine) (CB := CacheService.InMemory_CacheBackend)
         "k" (JArr []) None Examples.freshCache).2 in
  CacheService.get (E := Examples.engine) (CB := CacheService.InMemory_CacheBackend) "k" stored
  = (Returned (JArr []), stored).
Proof.
  apply (memory_set_then_get (E := Examples.engine) "k" (JArr []) (JArr []) "[]" None 1000
           Examples.freshCache).
  - vm_compute. reflexivity.
  - vm_compute. reflexivity.
  - lia.
  - right. vm_compute. discriminate.
Defined.

Lemma memory_entry_expires_witness :
  let stored :=
    Clock.elapse 3600001
      (CacheService.set (E := Examples.engine) (CB := CacheService.InMemory_CacheBackend)
         "k" (JArr []) None Examples.freshCache).2 in
  CacheService.get (E := Examples.engine) (CB := CacheService.InMemory_CacheBackend) "k" stored
  = (Returned JNull, stored).
Proof.
  apply (memory_entry_expires (E := Examples.engine) "k" (JArr []) None 3600001
           Examples.freshCache).
  - vm_compute. reflexivity.
  - vm_compute. discriminate.
  - vm_compute. reflexivity.
Defined.

Lemma memory_other_keys_untouched_witness :
  (CacheService.get (E := Examples.engine) (CB := CacheService.InMemory_CacheBackend) "j"
     (CacheService.set (E := Examples.engine) (CB := CacheService.InMemory_CacheBackend)
        "k" (JArr []) None Scenarios.warmServer.(Routes.cacheService)).2).1
  = (CacheService.get (E := Examples.engine) (CB := CacheService.InMemory_CacheBackend) "j"
       Scenarios.warmServer.(Routes.cacheService)).1.
Proof.
  refine (proj1 (memory_other_keys_untouched (E := Examples.engine) "k" "j" (JArr []) None
                   Scenarios.warmServer.(Routes.cacheService) _)).
  discriminate.
Defined.

(** ** The route handlers, beyond the failing upstream *)

Section CacheReturns.
Context {E : JsEngine} {B : Type} {CB : CacheService.CacheBackend B}.
Import CacheService.

Lemma get_returns (key : string) (s : CacheService B) :
  exists v s', get key s = (Returned v, s').
Proof.
  unfold get, on_backend. unfold_M.
  destruct (backend_get key (backend s)) as [[[raw|]|e] b']; simpl; eauto.
  destruct (JSON_parse raw); simpl; eauto.
Qed.

Lemma set_returns (key : string) (value : JsValue) (ttlSeconds : option Z) (s : CacheService B) :
  set key value ttlSeconds s = (Returned (), (set key value ttlSeconds s).2).
Proof.
  unfold set, on_backend, console_warn. unfold_M.
  destruct (backend_set _ _ _ _) as [[[]|e] b']; simpl; eauto.
Qed.
End CacheReturns.

Section RouteFlowFacts.
Context {E : JsEngine} {C : Routes.Collaborators}.
Context {A : Type} {DSA : DataSourceAdapter A} {B : Type} {CB : CacheService.CacheBackend B}.
Import Routes RouteObservations.

(** A handler past validation is [cacheAside] on the key and the call of
    [validQuery]. *)
Lemma handler_cacheAside (route : Route) (req : HttpRequest)
    (cacheKey : string) (fetch : M A (list BusinessRecord.t)) :
  validQuery route req = Some (cacheKey, fetch) ->
  exists label,
    handler (A := A) (B := B) route req
    = cacheAside cacheKey fetch (projection route) (cacheTtl route) label.
Proof.
  intros Hvalid. destruct route; simpl in *.
  - unfold getBusinesses. destruct (bboxSchema_safeParse (query req)) as [|d]; [done|].
    injection Hvalid as <- <-. by eexists.
  - unfold getNearby. destruct (nearbySchema_safeParse (query req)) as [|d]; [done|].
    injection Hvalid as <- <-. by eexists.
  - unfold getStaffBusinesses. destruct (requireStaff req); [done|].
    destruct (staff_bboxSchema_safeParse (query req)) as [|d]; [done|].
    injection Hvalid as <- <-. by eexists.
Qed.

(** X5. A request its schema refuses is answered 400 with the flattened
    error, and nothing else happens: the adapter is not called, the cache is
    neither read nor written, nothing is logged. *)
Theorem invalid_query_answers_400
    (route : Route) (req : HttpRequest) (details : JsValue) (w : World A B) :
  validationError route req = Some details ->
  handler route req w
  = (Returned (json 400 [] (JObj [("error", JStr "Invalid query parameters");
                                  ("details", details)])), w).
Proof.
  intros Hbad. destruct route; simpl in *.
  - unfold getBusinesses. destruct (bboxSchema_safeParse (query req)); [|done].
    by injection Hbad as ->.
  - unfold getNearby. destruct (nearbySchema_safeParse (query req)); [|done].
    by injection Hbad as ->.
  - unfold getStaffBusinesses. destruct (requireStaff req); [done|].
    destruct (staff_bboxSchema_safeParse (query req)); [|done].
    by injection Hbad as ->.
Qed.

Lemma cacheAside_hit
    (cacheKey : string) (fetch : M A (list BusinessRecord.t))
    (project : list BusinessRecord.t -> JsValue) (ttlSeconds : option Z) (label : string)
    (w : World A B) (v : JsValue) (c' : CacheService.CacheService B) :
  CacheService.get cacheKey (cacheService w) = (Returned v, c') ->
  truthy v = true ->
  cacheAside cacheKey fetch project ttlSeconds label w
  = (Returned (json 200 [("X-Cache", "HIT")] v),
     {| adapter := adapter w; cacheService := c'; errors := errors w |}).
Proof.
  intros Hget Hhit. unfold cacheAside, on_cache. unfold_M. rewrite Hget. simpl. by rewrite Hhit.
Qed.

Lemma cacheAside_miss
    (cacheKey : string) (fetch : M A (list BusinessRecord.t))
    (project : list BusinessRecord.t -> JsValue) (ttlSeconds : option Z) (label : string)
    (w : World A B) (v : JsValue) (c' : CacheService.CacheService B)
    (records : list BusinessRecord.t) (a' : A) :
  CacheService.get cacheKey (cacheService w) = (Returned v, c') ->
  truthy v = false ->
  fetch (adapter w) = (Returned records, a') ->
  cacheAside cacheKey fetch project ttlSeconds label w
  = (Returned (json 200 [("X-Cache", "MISS")] (project records)),
     {| adapter := a';
        cacheService := (CacheService.set cacheKey (project records) ttlSeconds c').2;
        errors := errors w |}).
Proof.
  intros Hget Hmiss Hfetch.
  unfold cacheAside, on_cache, on_adapter. unfold_M. rewrite Hget. simpl. rewrite Hmiss.
  simpl. rewrite Hfetch. simpl. by rewrite set_returns.
Qed.

(** X6. When the cache holds a truthy value under the key of a valid
    request, the handler answers 200 with that value and the header
    X-Cache: HIT; the adapter is not called and nothing is logged or
    written. *)
Theorem cache_hit_skips_upstream
    (route : Route) (req : HttpRequest) (w : World A B)
    (cacheKey : string) (fetch : M A (list BusinessRecord.t))
    (v : JsValue) (c' : CacheService.CacheService B) :
  validQuery route req = Some (cacheKey, fetch) ->
  CacheService.get cacheKey (cacheService w) = (Returned v, c') ->
  truthy v = true ->
  handler route req w
  = (Returned (json 200 [("X-Cache", "HIT")] v),
     {| adapter := adapter w; cacheService := c'; errors := errors w |}).
Proof.
  intros Hvalid Hget Hhit. destruct (handler_cacheAside route req _ _ Hvalid) as (label & ->).
  by eapply cacheAside_hit.
Qed.

(** X7. On a miss, when the adapter returns records, the handler answers
    200 with their projection (the public whitelist, or the staff records
    on the staff route) and the header X-Cache: MISS, and the projection was
    handed to [CacheService.set] under the key before the answer, with the
    service's time to live, or 900 seconds on the staff route. The answer
    does not depend on what the cache write did. *)
Theorem cache_miss_fetches_and_stores
    (route : Route) (req : HttpRequest) (w : World A B)
    (cacheKey : string) (fetch : M A (list BusinessRecord.t))
    (v : JsValue) (c' : CacheService.CacheService B)
    (records : list BusinessRecord.t) (a' : A) :
  validQuery route req = Some (cacheKey, fetch) ->
  CacheService.get cacheKey (cacheService w) = (Returned v, c') ->
  truthy v = false ->
  fetch (adapter w) = (Returned records, a') ->
  handler route req w
  = (Returned (json 200 [("X-Cache", "MISS")] (projection route records)),
     {| adapter := a';
        cacheService :=
          (CacheService.set cacheKey (projection route records) (cacheTtl route) c').2;
        errors := errors w |}).
Proof.
  intros Hvalid Hget Hmiss Hfetch.
  destruct (handler_cacheAside route req _ _ Hvalid) as (label & ->).
  by eapply cacheAside_miss.
Qed.
End RouteFlowFacts.

Section CacheAsideFacts.
Context {E : JsEngine} {C : Routes.Collaborators} {A : Type} {DSA : DataSourceAdapter A}.
Import CacheService Routes RouteObservations.

(** X8. Cache-aside on the in-memory cache: after a miss that fetched
    records, the same request repeated within the time to live is answered
    from the cache with the same body and the header X-Cache: HIT, and the
    adapter is not called again. The engine is assumed to parse the text it
    serialised the body to back into that body. *)
Theorem repeated_request_is_a_hit
    (route : Route) (req : HttpRequest) (w : World A InMemoryBackend)
    (cacheKey : string) (fetch : M A (list BusinessRecord.t))
    (v : JsValue) (c' : CacheService InMemoryBackend)
    (records : list BusinessRecord.t) (a' : A) (text : string) (ms : Z) :
  validQuery route req = Some (cacheKey, fetch) ->
  get cacheKey (cacheService w) = (Returned v, c') ->
  truthy v = false ->
  fetch (adapter w) = (Returned records, a') ->
  JSON_stringify (projection route records) None = Some text ->
  JSON_parse text = Some (projection route records) ->
  0 <= ms ->
  Clock.effectiveTtl (cacheTtl route) c' = 0 \/
  ms <= Clock.effectiveTtl (cacheTtl route) c' * 1000 ->
  let later := WorldClock.elapse ms (handler route req w).2 in
  handler route req later
  = (Returned (json 200 [("X-Cache", "HIT")] (projection route records)), later) /\
  adapter later = a'.
Proof.
  intros Hvalid Hget Hmiss Hfetch Htext Hparse Hms Hlive later.
  destruct (handler_cacheAside (B := InMemoryBackend) route req _ _ Hvalid) as (label & Hh).
  assert (Hlater : later =
            {| adapter := a';
               cacheService :=
                 Clock.elapse ms
                   (set cacheKey (projection route records) (cacheTtl route) c').2;
               errors := errors w |}).
  { unfold later. rewrite Hh.
    by rewrite (cacheAside_miss _ _ _ _ _ w v c' records a' Hget Hmiss Hfetch). }
  split; [|by rewrite Hlater].
  pose proof (memory_read_back cacheKey (projection route records) _ text (cacheTtl route)
                ms c' Htext Hparse Hms Hlive) as Hhit.
  rewrite Hh, Hlater.
  set (w1 := {| adapter := a';
                cacheService :=
                  Clock.elapse ms
                    (set cacheKey (projection route records) (cacheTtl route) c').2;
                errors := errors w |}).
  change (get cacheKey (cacheService w1)
          = (Returned (projection route records), cacheService w1)) in Hhit.
  rewrite (cacheAside_hit cacheKey fetch (projection route) (cacheTtl route) label w1
             (projection route records) (cacheService w1) Hhit); [done|].
  by destruct route.
Qed.
End CacheAsideFacts.

Lemma invalid_query_answers_400_witness :
  Routes.handler (E := Examples.engine) (C := Examples.collaborators)
    (DSA := Calgary.Calgary_DataSourceAdapter (E := Examples.engine) (U := Examples.upstreamDown))
    (CB := CacheService.InMemory_CacheBackend)
    Routes.PublicBusinesses Scenarios.bareRequest Examples.server
  = (Returned (Routes.json 400 [] (JObj [("error", JStr "Invalid query parameters");
                                         ("details", JStr "invalid")])),
     Examples.server).
Proof.
  apply (invalid_query_answers_400 (E := Examples.engine) (C := Examples.collaborators)
           (DSA := Calgary.Calgary_DataSourceAdapter
                     (E := Examples.engine) (U := Examples.upstreamDown))
           (CB := CacheService.InMemory_CacheBackend)
           Routes.PublicBusinesses Scenarios.bareRequest (JStr "invalid") Examples.server).
  vm_compute. reflexivity.
Defined.

Lemma cache_hit_skips_upstream_witness :
  Routes.handler (E := Examples.engine) (C := Examples.collaborators)
    (DSA := Calgary.Calgary_DataSourceAdapter (E := Examples.engine) (U := Examples.upstreamDown))
    (CB := CacheService.InMemory_CacheBackend)
    Routes.PublicBusinesses Examples.publicRequest Scenarios.warmServer
  = (Returned (Routes.json 200 [("X-Cache", "HIT")] (JArr [])), Scenarios.warmServer).
Proof.
  eapply (cache_hit_skips_upstream (E := Examples.engine) (C := Examples.collaborators)
            (DSA := Calgary.Calgary_DataSourceAdapter
                      (E := Examples.engine) (U := Examples.upstreamDown))
            (CB := CacheService.InMemory_CacheBackend)
            Routes.PublicBusinesses Examples.publicRequest Scenarios.warmServer).
  - vm_compute. reflexivity.
  - vm_compute. reflexivity.
  - reflexivity.
Defined.

Lemma cache_miss_fetches_and_stores_witness :
  exists records w',
    Routes.handler (E := Examples.engine) (C := Examples.collaborators)
      (DSA := Calgary.Calgary_DataSourceAdapter (E := Examples.engine)
                (U := Examples.upstreamServing [Examples.near; Examples.unplaced]))
      (CB := CacheService.InMemory_CacheBackend)
      Routes.PublicBusinesses Examples.publicRequest Examples.server
    = (Returned (Routes.json 200 [("X-Cache", "MISS")] (Routes.publicJSON records)), w') /\
    length records = 2%nat.
Proof.
  eexists. eexists. split.
  - eapply (cache_miss_fetches_and_stores (E := Examples.engine) (C := Examples.collaborators)
              (DSA := Calgary.Calgary_DataSourceAdapter (E := Examples.engine)
                        (U := Examples.upstreamServing [Examples.near; Examples.unplaced]))
              (CB := CacheService.InMemory_CacheBackend)
              Routes.PublicBusinesses Examples.publicRequest Examples.server).
    + vm_compute. reflexivity.
    + vm_compute. reflexivity.
    + reflexivity.
    + vm_compute. reflexivity.
  - reflexivity.
Defined.

Lemma repeated_request_is_a_hit_witness :
  let later :=
    WorldClock.elapse 60000
      (Routes.handler (E := Examples.engine) (C := Examples.collaborators)
         (DSA := Calgary.Calgary_DataSourceAdapter (E := Examples.engine)
                   (U := Examples.upstreamServing []))
         (CB := CacheService.InMemory_CacheBackend)
         Routes.PublicBusinesses Examples.publicRequest Examples.server).2 in
  Routes.handler (E := Examples.engine) (C := Examples.collaborators)
    (DSA := Calgary.Calgary_DataSourceAdapter (E := Examples.engine)
              (U := Examples.upstreamServing []))
    (CB := CacheService.InMemory_CacheBackend)
    Routes.PublicBusinesses Examples.publicRequest later
  = (Returned (Routes.json 200 [("X-Cache", "HIT")] (JArr [])), later).
Proof.
  refine (proj1 (repeated_request_is_a_hit (E := Examples.engine) (C := Examples.collaborators)
            (DSA := Calgary.Calgary_DataSourceAdapter (E := Examples.engine)
                      (U := Examples.upstreamServing []))
            Routes.PublicBusinesses Examples.publicRequest Examples.server
            Scenarios.downtownKey _ JNull Examples.freshCache [] _ "[]" 60000
            _ _ _ _ _ _ _ _)).
  - vm_compute. reflexivity.
  - vm_compute. reflexivity.
  - reflexivity.
  - vm_compute. reflexivity.
  - vm_compute. reflexivity.
  - vm_compute. reflexivity.
  - lia.
  - right. vm_compute. discriminate.
Defined.

Section StaffGateFacts.
Context {E : JsEngine} {C : Routes.Collaborators}.
Context {A : Type} {DSA : DataSourceAdapter A} {B : Type} {CB : CacheService.CacheBackend B}.
Import Routes RouteObservations.

(** The two middlewares let a request pass exactly when its bearer token
    verifies with the role staff or admin. *)
Lemma requireStaff_passes (req : HttpRequest) :
  requireStaff req = None <->
  exists token role,
    bearerToken req = Some token /\ jwt_verify token = Verified role /\
    (role = "staff" \/ role = "admin").
Proof.
  unfold requireStaff, bearerToken.
  destruct (authorization req) as [authHeader|]; [|split; [done|by intros (? & ? & ? & _)]].
  destruct (String.prefix "Bearer " authHeader); [|split; [done|by intros (? & ? & ? & _)]].
  set (token := String.substring _ _ _).
  destruct (jwt_verify token) as [role| |] eqn:Hv.
  - destruct (String.eqb_spec role "staff") as [->|Hs]; simpl.
    + split; [|done]. intros _. exists token, "staff". by repeat split; [|left].
    + destruct (String.eqb_spec role "admin") as [->|Ha]; simpl.
      * split; [|done]. intros _. exists token, "admin". by repeat split; [|right].
      * split; [done|]. intros (t & r & Ht & Hr & Hrole).
        injection Ht as <-. rewrite Hv in Hr. injection Hr as <-. by destruct Hrole.
  - split; [done|]. intros (t & r & Ht & Hr & _). injection Ht as <-. by rewrite Hv in Hr.
  - split; [done|]. intros (t & r & Ht & Hr & _). injection Ht as <-. by rewrite Hv in Hr.
Qed.

Lemma requireStaff_refusal (req : HttpRequest) (refusal : HttpResponse) :
  requireStaff req = Some refusal ->
  (statusCode refusal = 401 \/ statusCode refusal = 403) /\
  (statusCode refusal = 403 <->
   exists token role, bearerToken req = Some token /\ jwt_verify token = Verified role).
Proof.
  unfold requireStaff, bearerToken.
  destruct (authorization req) as [authHeader|].
  - destruct (String.prefix "Bearer " authHeader).
    + set (token := String.substring _ _ _).
      destruct (jwt_verify token) as [role| |] eqn:Hv.
      * destruct (negb _ && negb _); [|done]. intros [= <-]. simpl.
        split; [by right|]. split; [|done]. intros _. by exists token, role.
      * intros [= <-]. simpl. split; [by left|]. split; [done|].
        intros (t & r & Ht & Hr). injection Ht as <-. by rewrite Hv in Hr.
      * intros [= <-]. simpl. split; [by left|]. split; [done|].
        intros (t & r & Ht & Hr). injection Ht as <-. by rewrite Hv in Hr.
    + intros [= <-]. simpl. split; [by left|]. split; [done|]. by intros (? & ? & ? & _).
  - intros [= <-]. simpl. split; [by left|]. split; [done|]. by intros (? & ? & ? & _).
Qed.

(** X9. The staff route is closed without a verified role. A request whose
    Authorization header carries no bearer token, or a token that does not
    verify, is answered 401; one whose token verifies with a role other
    than staff or admin is answered 403; in both cases nothing else happens
    (no cache access, no adapter call). So an answer 200 of the staff route
    means the token verified with the role staff or admin. *)
Theorem staff_route_requires_verified_role (req : HttpRequest) (w : World A B) :
  (forall refusal, requireStaff req = Some refusal ->
     getStaffBusinesses req w = (Returned refusal, w) /\
     (statusCode refusal = 401 \/ statusCode refusal = 403) /\
     (statusCode refusal = 403 <->
      exists token role, bearerToken req = Some token /\ jwt_verify token = Verified role)) /\
  (requireStaff req = None <->
   exists token role,
     bearerToken req = Some token /\ jwt_verify token = Verified role /\
     (role = "staff" \/ role = "admin")) /\
  (forall response w',
     getStaffBusinesses req w = (Returned response, w') -> statusCode response = 200 ->
     exists token role,
       bearerToken req = Some token /\ jwt_verify token = Verified role /\
       (role = "staff" \/ role = "admin")).
Proof.
  split; [|split].
  - intros refusal Hr. split; [|by apply requireStaff_refusal].
    unfold getStaffBusinesses. by rewrite Hr.
  - apply requireStaff_passes.
  - intros response w' Hh H200. apply requireStaff_passes.
    destruct (requireStaff req) as [refusal|] eqn:Hr; [|done].
    unfold getStaffBusinesses in Hh. rewrite Hr in Hh. injection Hh as <- <-.
    destruct (requireStaff_refusal req refusal Hr) as [[H401|H403] _]; lia.
Qed.
End StaffGateFacts.

(** ** The staff projection *)

(** X10. The staff projection of a record is its public projection with
    one more property, [raw], that holds the record's raw payload (an empty
    object when the record has none); [toStaffRecords] does so record by
    record, in order. *)
Theorem staff_record_extends_public (records : list BusinessRecord.t) :
  List.map StaffBusinessRecord.toObject (toStaffRecords records)
  = List.map (fun r => (PublicBusinessRecord.toObject (toPublicRecord r)
                        ++ [("raw", JObj (default [] (BusinessRecord._raw r)))])%list)
             records /\
  List.map (getProp "raw") (List.map StaffBusinessRecord.toObject (toStaffRecords records))
  = List.map (fun r => Some (JObj (default [] (BusinessRecord._raw r)))) records /\
  Forall (fun o => getProp "raw" o = None /\ getProp "_raw" o = None)
         (List.map PublicBusinessRecord.toObject (toPublicRecords records)).
Proof.
  unfold toStaffRecords, toPublicRecords. rewrite !map_map. repeat split.
  - apply List.Forall_map, Forall_forall. by intros r _.
Qed.

(** ** Every request is answered *)

Section ResponseFacts.
Context {E : JsEngine} {C : Routes.Collaborators}.
Context {A : Type} {DSA : DataSourceAdapter A} {B : Type} {CB : CacheService.CacheBackend B}.
Import Routes RouteObservations.

Lemma cacheAside_responds
    (cacheKey : string) (fetch : M A (list BusinessRecord.t))
    (project : list BusinessRecord.t -> JsValue) (ttlSeconds : option Z) (label : string)
    (w : World A B) :
  exists response w',
    cacheAside cacheKey fetch project ttlSeconds label w = (Returned response, w') /\
    (statusCode response = 200 /\ errors w' = errors w \/
     statusCode response = 502 /\ errors w' = (errors w ++ [label])%list /\
     cacheService w' = (CacheService.get cacheKey (cacheService w)).2).
Proof.
  destruct (get_returns cacheKey (cacheService w)) as (v & c' & Hget).
  destruct (truthy v) eqn:Hv.
  - eexists _, _. split; [by eapply cacheAside_hit|]. by left.
  - destruct (fetch (adapter w)) as [[records|e] a'] eqn:Hfetch.
    + eexists _, _. split; [by eapply cacheAside_miss|]. by left.
    + eexists _, _. split; [by eapply cacheAside_upstream_failure|].
      right. simpl. by rewrite Hget.
Qed.

(** X18. A handler never throws and never leaves a request unanswered:
    whatever the request, the state of the cache and the behaviour of the
    adapter and of the cache backend, it returns one response, with status
    200, 400, 401, 403 or 502. 401 and 403 come from the staff route only;
    400, 401 and 403 leave the server as it was; [console.error] is written
    to exactly when the answer is 502, and then nothing was stored in the
    cache. *)
Theorem handler_always_responds (route : Route) (req : HttpRequest) (w : World A B) :
  exists response w',
    handler route req w = (Returned response, w') /\
    (statusCode response = 200 \/ statusCode response = 400 \/ statusCode response = 401 \/
     statusCode response = 403 \/ statusCode response = 502) /\
    (statusCode response = 401 \/ statusCode response = 403 -> route = StaffBusinesses) /\
    (statusCode response = 400 \/ statusCode response = 401 \/ statusCode response = 403 ->
     w' = w) /\
    (statusCode response = 502 <-> errors w' <> errors w) /\
    (statusCode response = 502 ->
     exists cacheKey, cacheService w' = (CacheService.get cacheKey (cacheService w)).2).
Proof.
  set (answered := fun (response : HttpResponse) (w' : World A B) =>
         (statusCode response = 200 \/ statusCode response = 400 \/
          statusCode response = 401 \/ statusCode response = 403 \/
          statusCode response = 502) /\
         (statusCode response = 401 \/ statusCode response = 403 ->
          route = StaffBusinesses) /\
         (statusCode response = 400 \/ statusCode response = 401 \/
          statusCode response = 403 -> w' = w) /\
         (statusCode response = 502 <-> errors w' <> errors w) /\
         (statusCode response = 502 ->
          exists cacheKey,
            cacheService w' = (CacheService.get cacheKey (cacheService w)).2)).
  change (exists response w',
             handler route req w = (Returned response, w') /\ answered response w').
  assert (Hlist : forall (l : list string) x, (l ++ [x])%list <> l).
  { intros l x Heq. apply (f_equal length) in Heq. rewrite length_app in Heq. simpl in Heq. lia. }
  assert (Haside : forall cacheKey fetch project ttlSeconds label,
             exists response w',
               cacheAside cacheKey fetch project ttlSeconds label w = (Returned response, w') /\
               answered response w').
  { intros cacheKey fetch project ttlSeconds label.
    destruct (cacheAside_responds cacheKey fetch project ttlSeconds label w)
      as (response & w' & -> & [[H200 Herr]|(H502 & Herr & Hcache)]);
      exists response, w'; (split; [done|]); unfold answered.
    - rewrite H200, Herr. repeat split; try (by left); try lia; try done;
        try (intros [|[|]]; lia).
    - rewrite H502, Herr. repeat split; try (by do 4 right); try lia; try done;
        try (intros [|[|]]; lia).
      intros _. by exists cacheKey. }
  assert (Hsame : forall response,
             statusCode response = 400 \/
             (route = StaffBusinesses /\
              (statusCode response = 401 \/ statusCode response = 403)) ->
             answered response w).
  { intros response Hcode. unfold answered. repeat split; try done; try lia.
    intros [|]; destruct Hcode as [|[? _]]; [lia|done|lia|done]. }
  clearbody answered.
  destruct route; simpl in *.
  - unfold getBusinesses. destruct (bboxSchema_safeParse (query req)) as [details|d].
    + eexists _, _. split; [done|]. apply Hsame. by left.
    + apply Haside.
  - unfold getNearby. destruct (nearbySchema_safeParse (query req)) as [details|d].
    + eexists _, _. split; [done|]. apply Hsame. by left.
    + apply Haside.
  - unfold getStaffBusinesses. destruct (requireStaff req) as [refusal|] eqn:Hr.
    + eexists _, _. split; [done|]. apply Hsame. right. split; [done|].
      by destruct (requireStaff_refusal req refusal Hr) as [? _].
    + destruct (staff_bboxSchema_safeParse (query req)) as [details|d].
      * eexists _, _. split; [done|]. apply Hsame. by left.
      * apply Haside.
Qed.
End ResponseFacts.

(** ** The Calgary adapter, beyond the claims *)

Section AdapterFlowFacts.
Context {E : JsEngine} {U : Calgary.Upstream}.
Import Calgary AdapterObservations.

(** The number of attempts of a call, from the outcomes of the attempts. *)
Lemma attempts_until_settled (req : Request) (s : State) (j : nat) :
  (j <= retries)%nat ->
  (forall i, (i < j)%nat ->
     retryableAt (length (sent s) + i) req = true /\
     timedOutAt (length (sent s)) (randomCalls s) req i = false) ->
  ((j < retries)%nat ->
     retryableAt (length (sent s) + j) req = false \/
     timedOutAt (length (sent s)) (randomCalls s) req j = true) ->
  (client_get req s).1 = settle (axios_request (length (sent s) + j) req) /\
  sent (client_get req s).2 = (sent s ++ repeat req (S j))%list /\
  sleeps (client_get req s).2
  = (sleeps s ++ List.map (delayAt (length (sent s)) (randomCalls s) req) (seq 0 j))%list /\
  uuidCalls (client_get req s).2 = uuidCalls s.
Proof.
  intros Hj Hbefore Hlast. unfold client_get.
  destruct (attempt_run retries 0 (length (sent s)) (randomCalls s) req s)
    as (k & Hk & Hsent & Hu & Hsl & Hre & Hstop & Hout); [done|lia|lia|].
  change (timeoutAt (length (sent s)) (randomCalls s) req 0) with timeout in *.
  assert (k = S j) as ->.
  { destruct (decide (k - 1 < j)%nat) as [Hlt|Hge].
    - destruct (Hbefore (k - 1)%nat Hlt) as [Hr Ht].
      destruct Hstop as [Hs|Hs]; [unfold retries in *; lia|congruence..].
    - destruct (decide (j < k - 1)%nat) as [Hlt|Hge']; [|lia].
      destruct (Hre j ltac:(lia)) as [Hr Ht].
      destruct Hlast as [Hs|Hs]; [unfold retries in *; lia|congruence..]. }
  rewrite Hout, Hsent, Hsl, Hu. simpl. by rewrite !Nat.sub_0_r.
Qed.

(** The delays of a call that made [j] retries, written out. *)
Lemma delays_written_out (req : Request) (s s' : State) (j : nat) :
  (j <= 3)%nat ->
  (forall i, (i < j)%nat -> retryableAt (length (sent s) + i) req = true) ->
  sleeps s'
  = (sleeps s ++ List.map (delayAt (length (sent s)) (randomCalls s) req) (seq 0 j))%list ->
  length (sleeps s') = (length (sleeps s) + j)%nat /\
  (forall i, (i < j)%nat ->
     exists e,
       axios_request (length (sent s) + i) req = Failure e /\
       sleeps s' !! (length (sleeps s) + i)%nat
       = Some (let calculatedDelay := nth i [200; 400; 800]%float 0%float in
               let delay := Math_max calculatedDelay
                              (match retry_after e with
                               | Some retryAfterMs => Math_max 0 retryAfterMs
                               | None => 0%float
                               end) in
               (delay + delay * 0.2 * Math_random (randomCalls s + i))%float)).
Proof.
  intros Hj Hbefore ->. split; [rewrite length_app, length_map, length_seq; lia|].
  intros i Hi. specialize (Hbefore i Hi). unfold retryableAt in Hbefore.
  destruct (axios_request (length (sent s) + i) req) as [d|e] eqn:Ha; [done|].
  exists e. split; [done|]. rewrite lookup_app_r by lia.
  replace (length (sleeps s) + i - length (sleeps s))%nat with i by lia.
  rewrite list_lookup_fmap, lookup_seq_lt by lia. simpl.
  f_equal. apply delayAt_failure; [done|lia].
Qed.

(** X11. Retries recover a call: when the first [j] attempts (at most three)
    fail with retryable errors that leave time on the timeout of the call,
    and the next attempt is answered, [fetchByBoundingBox] returns the
    normalised records of that answer, having sent the same request [j + 1]
    times and slept before retry 1, 2, 3 the larger of 200, 400, 800 ms and
    the Retry-After of the failure, plus its random share of up to a
    fifth. *)
Theorem fetch_recovers_after_retries
    (bbox : BoundingBox.t) (limit : option Z) (s : State) (j : nat)
    (data : list SocrataRecord.t) :
  let req := bboxRequest bbox limit in
  let n0 := length (sent s) in
  let r0 := randomCalls s in
  (j <= 3)%nat ->
  (forall i, (i < j)%nat ->
     retryableAt (n0 + i) req = true /\ timedOutAt n0 r0 req i = false) ->
  axios_request (n0 + j) req = Response data ->
  exists recs s',
    Calgary_fetchByBoundingBox bbox limit s = (Returned recs, s') /\
    Forall2 normalises data recs /\
    sent s' = (sent s ++ repeat req (S j))%list /\
    length (sleeps s') = (length (sleeps s) + j)%nat /\
    (forall i, (i < j)%nat ->
       exists e,
         axios_request (n0 + i) req = Failure e /\
         sleeps s' !! (length (sleeps s) + i)%nat
         = Some (let calculatedDelay := nth i [200; 400; 800]%float 0%float in
                 let delay := Math_max calculatedDelay
                                (match retry_after e with
                                 | Some retryAfterMs => Math_max 0 retryAfterMs
                                 | None => 0%float
                                 end) in
                 (delay + delay * 0.2 * Math_random (r0 + i))%float)).
Proof.
  intros req n0 r0 Hj Hbefore Hok.
  destruct (attempts_until_settled req s j Hj Hbefore) as (Hout & Hsent & Hsl & _).
  { intros _. left. unfold retryableAt. fold n0. by rewrite Hok. }
  fold n0 in Hout. rewrite Hok in Hout. simpl in Hout.
  destruct (client_get req s) as [r s1] eqn:Hget. simpl in *. subst r.
  destruct (mapM_toBusinessRecord data s1) as (recs & s2 & Hm & Hf & Hs2 & Hl2).
  exists recs, s2. unfold Calgary_fetchByBoundingBox, bind. fold req. rewrite Hget, Hm.
  split; [done|]. split; [done|]. split; [congruence|].
  apply (delays_written_out req s s2 j Hj); [intros i Hi; by apply Hbefore|congruence].
Qed.

(** X12. A call gives up with the error of its last attempt. When the
    first [j] attempts (at most three) fail with retryable errors that
    leave time on the timeout, and the next attempt fails too, with three
    retries made, or with an error that is not retryable, or with the
    timeout used up by its duration and the delay that would follow, then
    [fetchByBoundingBox] throws that error after [j + 1] requests and [j]
    delays; no record is returned and no UUID is drawn. [fetchByRadius],
    whose request is the box of its query with twice the limit, throws the
    same error. *)
Theorem fetch_fails_when_retries_exhausted
    (bbox : BoundingBox.t) (limit : option Z) (query : RadiusQuery.t) (s : State)
    (j : nat) (e : AxiosError) :
  let req := bboxRequest bbox limit in
  let n0 := length (sent s) in
  let r0 := randomCalls s in
  (j <= 3)%nat ->
  (forall i, (i < j)%nat ->
     retryableAt (n0 + i) req = true /\ timedOutAt n0 r0 req i = false) ->
  axios_request (n0 + j) req = Failure e ->
  j = 3%nat \/ retryCondition e = false \/ timedOutAt n0 r0 req j = true ->
  (exists s',
     Calgary_fetchByBoundingBox bbox limit s = (Thrown (AxiosFailure e), s') /\
     sent s' = (sent s ++ repeat req (S j))%list /\
     length (sleeps s') = (length (sleeps s) + j)%nat /\
     uuidCalls s' = uuidCalls s) /\
  (bbox = radiusBox (RadiusQuery.lat query) (RadiusQuery.lng query)
                    (RadiusQuery.radiusMetres query) ->
   limit = Some (default SOCRATA_PAGE_LIMIT (RadiusQuery.limit query) * 2) ->
   (Calgary_fetchByRadius query s).1 = Thrown (AxiosFailure e)).
Proof.
  intros req n0 r0 Hj Hbefore Hfail Hend.
  destruct (attempts_until_settled req s j Hj Hbefore) as (Hout & Hsent & Hsl & Hu).
  { intros Hlt. fold n0 r0. destruct Hend as [->|[Hr|Ht]].
    - unfold retries in Hlt. lia.
    - left. unfold retryableAt. by rewrite Hfail.
    - by right. }
  fold n0 in Hout. rewrite Hfail in Hout. simpl in Hout.
  destruct (client_get req s) as [r s1] eqn:Hget. simpl in *. subst r.
  split.
  - exists s1. unfold Calgary_fetchByBoundingBox, bind. fold req. rewrite Hget.
    repeat split; try done. rewrite Hsl, length_app, length_map, length_seq. lia.
  - intros -> ->. unfold Calgary_fetchByRadius, Calgary_fetchByBoundingBox, bind.
    fold req. by rewrite Hget.
Qed.

(** X13. [fetchByRadius] misses nothing it was given. Its result is a
    prefix of the records of the normalised response that have a position
    within [radiusMetres] of the query point by the haversine formula on a
    sphere of radius 6,371,000 m, in the order of the response: the first
    [limit] of them when [limit] is not negative. When at most [limit]
    records qualify, the result is exactly those records. *)
Theorem fetchByRadius_returns_all_within_circle
    (query : RadiusQuery.t) (s s1 : State) (data : list SocrataRecord.t) :
  let lat := RadiusQuery.lat query in
  let lng := RadiusQuery.lng query in
  let radiusMetres := RadiusQuery.radiusMetres query in
  let limit := default SOCRATA_PAGE_LIMIT (RadiusQuery.limit query) in
  let distance := fun rlat rlng : float =>
    let dLat := ((rlat - lat) * Math_PI / 180)%float in
    let dLng := ((rlng - lng) * Math_PI / 180)%float in
    let a := (Number_exponentiate (Math_sin (dLat / 2)) 2 +
              Math_cos (lat * Math_PI / 180) * Math_cos (rlat * Math_PI / 180) *
              Number_exponentiate (Math_sin (dLng / 2)) 2)%float in
    (6371000 * 2 * Math_atan2 (Math_sqrt a) (Math_sqrt (1 - a)))%float in
  let within := fun b : BusinessRecord.t =>
    match BusinessRecord.lat b, BusinessRecord.lng b with
    | Some rlat, Some rlng => (distance rlat rlng <=? radiusMetres)%float
    | _, _ => false
    end in
  client_get (bboxRequest (radiusBox lat lng radiusMetres) (Some (limit * 2))) s
    = (Returned data, s1) ->
  exists all recs s2,
    Forall2 normalises data all /\
    Calgary_fetchByRadius query s = (Returned recs, s2) /\
    (exists rest, List.filter within all = (recs ++ rest)%list) /\
    (0 <= limit -> recs = take (Z.to_nat limit) (List.filter within all)) /\
    (Z.of_nat (length (List.filter within all)) <= limit ->
     recs = List.filter within all /\
     (forall b, b ∈ recs <-> b ∈ all /\ within b = true)).
Proof.
  intros lat lng radiusMetres limit distance within Hget.
  destruct (mapM_toBusinessRecord data s1) as (all & s2 & Hm & Hf & _).
  assert (Hwithin : forall b, inCircle lat lng radiusMetres b = within b) by reflexivity.
  set (inside := List.filter within all).
  assert (Hslice : 0 <= limit -> Array_slice0 inside limit = take (Z.to_nat limit) inside).
  { intros Hlimit. unfold Array_slice0.
    replace (limit <? 0) with false by (symmetry; apply Z.ltb_ge; lia).
    destruct (decide (limit <= Z.of_nat (length inside))).
    - by rewrite Z.min_l.
    - rewrite Z.min_r by lia. rewrite Nat2Z.id. rewrite !take_ge; [done|lia..]. }
  exists all, (Array_slice0 inside limit), s2. split; [done|]. split.
  { unfold Calgary_fetchByRadius, Calgary_fetchByBoundingBox, bind.
    fold lat lng radiusMetres limit. rewrite Hget, Hm. unfold ret.
    by rewrite (filter_ext _ _ Hwithin). }
  split; [|split].
  - unfold Array_slice0. eexists. symmetry. apply take_drop.
  - done.
  - intros Hle. assert (Hall : Array_slice0 inside limit = inside).
    { fold inside in Hle. rewrite Hslice by lia. apply take_ge. lia. }
    rewrite Hall. split; [done|]. intros b. unfold inside.
    rewrite list_elem_of_In, filter_In, <- list_elem_of_In. done.
Qed.

Lemma mapM_toBusinessRecord_uuids (data : list SocrataRecord.t) (s : State) :
  exists recs s',
    mapM toBusinessRecord data s = (Returned recs, s') /\
    uuidCalls s' = (uuidCalls s + length (anonymous data))%nat /\
    generatedIds data recs
    = List.map crypto_randomUUID (seq (uuidCalls s) (length (anonymous data))).
Proof.
  revert s. induction data as [|r data IH]; intros s.
  - exists [], s. simpl. unfold ret. repeat split. lia.
  - destruct (toBusinessRecord r s) as [rb s1] eqn:Hb.
    assert (Hcase : match SocrataRecord.getbusid r with
                    | Some i => exists b, rb = Returned b /\ s1 = s
                    | None => exists b, rb = Returned b /\
                                BusinessRecord.id b = crypto_randomUUID (uuidCalls s) /\
                                uuidCalls s1 = S (uuidCalls s)
                    end).
    { unfold toBusinessRecord in Hb. unfold_M. unfold randomUUID in Hb.
      destruct (SocrataRecord.getbusid r); simpl in Hb; injection Hb as <- <-.
      - destruct s. by eexists.
      - by eexists. }
    simpl. unfold bind at 1. rewrite Hb. unfold anonymous. simpl.
    destruct (SocrataRecord.getbusid r) as [i|] eqn:Hid.
    + destruct Hcase as (b & -> & ->).
      destruct (IH s) as (recs & s' & Hm & Hu & Hg).
      exists (b :: recs), s'. unfold bind. rewrite Hm. unfold ret. simpl.
      by repeat split.
    + destruct Hcase as (b & -> & Hbid & Hs1).
      destruct (IH s1) as (recs & s' & Hm & Hu & Hg).
      exists (b :: recs), s'. unfold bind. rewrite Hm. unfold ret. simpl.
      repeat split.
      * rewrite Hu, Hs1. fold (anonymous data). lia.
      * rewrite Hbid, Hg, Hs1. done.
Qed.

(** X14. Normalising a response draws one UUID for each record without
    [getbusid] and none for the others: the identifiers generated are the
    next values of the generator, in the order of the response, so they
    are pairwise distinct when the generator never repeats a value. *)
Theorem generated_ids_are_distinct
    (bbox : BoundingBox.t) (limit : option Z) (s s1 : State) (data : list SocrataRecord.t) :
  client_get (bboxRequest bbox limit) s = (Returned data, s1) ->
  exists recs s2,
    Calgary_fetchByBoundingBox bbox limit s = (Returned recs, s2) /\
    uuidCalls s2 = (uuidCalls s1 + length (anonymous data))%nat /\
    generatedIds data recs
    = List.map crypto_randomUUID (seq (uuidCalls s1) (length (anonymous data))) /\
    (fresh_uuids -> NoDup (generatedIds data recs)).
Proof.
  intros Hget. destruct (mapM_toBusinessRecord_uuids data s1) as (recs & s2 & Hm & Hu & Hg).
  exists recs, s2. unfold Calgary_fetchByBoundingBox, bind. rewrite Hget, Hm.
  repeat split; try done. intros Hfresh. rewrite Hg.
  apply (NoDup_fmap_2_strong crypto_randomUUID); [|apply NoDup_seq].
  intros m n _ _ Heq. destruct (decide (m = n)) as [|Hne]; [done|].
  by destruct (Hfresh m n Hne).
Qed.
End AdapterFlowFacts.

Lemma fetch_recovers_after_retries_witness :
  exists recs s',
    Calgary.Calgary_fetchByBoundingBox (E := Examples.engine)
      (U := Examples.upstreamRecovering [Examples.near]) Examples.downtown None Calgary.initial
    = (Returned recs, s') /\
    Forall2 Calgary.normalises [Examples.near] recs /\
    length (Calgary.sent s') = 3%nat /\
    length (Calgary.sleeps s') = 2%nat /\
    Calgary.sleeps s' !! 1%nat = Some 440%float.
Proof.
  destruct (fetch_recovers_after_retries (E := Examples.engine)
              (U := Examples.upstreamRecovering [Examples.near])
              Examples.downtown None Calgary.initial 2 [Examples.near])
    as (recs & s' & Hrun & Hnorm & Hsent & Hsleeps & Hdelays).
  - lia.
  - intros [|[|i]] Hi; [by vm_compute|by vm_compute|lia].
  - reflexivity.
  - exists recs, s'. rewrite Hsent, Hsleeps.
    destruct (Hdelays 1%nat ltac:(lia)) as (e & He & Hdelay).
    injection He as <-. by repeat split.
Defined.

Lemma fetch_fails_when_retries_exhausted_witness :
  exists s',
    Calgary.Calgary_fetchByBoundingBox (E := Examples.engine) (U := Examples.upstreamSlow)
      Examples.downtown None Calgary.initial
    = (Thrown (AxiosFailure (Examples.status 503)), s') /\
    length (Calgary.sent s') = 1%nat /\
    length (Calgary.sleeps s') = 0%nat /\
    Calgary.uuidCalls s' = 0%nat.
Proof.
  destruct (fetch_fails_when_retries_exhausted (E := Examples.engine)
              (U := Examples.upstreamSlow)
              Examples.downtown None Examples.centre Calgary.initial 0 (Examples.status 503))
    as [(s' & Hrun & Hsent & Hsleeps & Huuid) _].
  - lia.
  - intros i Hi. lia.
  - reflexivity.
  - right. right. by vm_compute.
  - exists s'. rewrite Hsent, Hsleeps, Huuid. by repeat split.
Defined.

Lemma fetchByRadius_returns_all_within_circle_witness :
  exists all recs s2,
    Forall2 Calgary.normalises [Examples.near; Examples.far; Examples.unplaced] all /\
    Calgary.Calgary_fetchByRadius (E := Examples.engine)
      (U := Examples.upstreamServing [Examples.near; Examples.far; Examples.unplaced])
      Examples.centre Calgary.initial = (Returned recs, s2) /\
    recs = take 10 (List.filter
                      (Calgary.inCircle (E := Examples.engine) 51.0447 (-114.0719) 1000) all).
Proof.
  edestruct (fetchByRadius_returns_all_within_circle (E := Examples.engine)
               (U := Examples.upstreamServing [Examples.near; Examples.far; Examples.unplaced])
               Examples.centre Calgary.initial)
    as (all & recs & s2 & Hnorm & Hrun & _ & Hrecs & _).
  - vm_compute. reflexivity.
  - exists all, recs, s2. split; [done|]. split; [done|]. apply Hrecs. by vm_compute.
Defined.

Lemma generated_ids_are_distinct_witness :
  exists recs s2,
    Calgary.Calgary_fetchByBoundingBox (E := Examples.engine)
      (U := Examples.upstreamServing [Examples.unplaced; Examples.near; Examples.unplaced])
      Examples.downtown None Calgary.initial
    = (Returned recs, s2) /\
    Calgary.uuidCalls s2 = 2%nat /\
    AdapterObservations.generatedIds
      [Examples.unplaced; Examples.near; Examples.unplaced] recs
    = ["00000000-0000-4000-8000-0"; "00000000-0000-4000-8000-1"].
Proof.
  edestruct (generated_ids_are_distinct (E := Examples.engine)
               (U := Examples.upstreamServing
                       [Examples.unplaced; Examples.near; Examples.unplaced])
               Examples.downtown None Calgary.initial)
    as (recs & s2 & Hrun & Huuid & Hids & _).
  - vm_compute. reflexivity.
  - exists recs, s2. by repeat split.
Defined.

(** ** Cache keys, beyond the claims *)

Lemma StronglySorted_filter {A} (R : relation A) (P : A -> Prop) `{forall x, Decision (P x)}
    (l : list A) :
  StronglySorted R l -> StronglySorted R (filter P l).
Proof.
  induction 1 as [|x l Hs IH Hx]; [constructor|].
  rewrite filter_cons. destruct (decide (P x)); [|done].
  constructor; [done|]. apply Forall_forall. intros y Hy.
  apply list_elem_of_filter in Hy as [_ Hy]. by eapply Forall_forall in Hx.
Qed.

Lemma filter_all {A} (P : A -> Prop) `{forall x, Decision (P x)} (l : list A) :
  Forall P l -> filter P l = l.
Proof.
  induction 1 as [|x l Hx _ IH]; [done|]. by rewrite filter_cons_True, IH.
Qed.

Section KeyEdgeFacts.
Context {E : JsEngine}.
Import CacheService KeyObservations.

(** The sorted keys of an object with one more key, without that key. *)
Lemma Array_sort_without (k : string) (keys : list string) :
  k ∉ keys ->
  filter (fun x => x <> k) (Array_sort (k :: keys)) = Array_sort keys.
Proof.
  intros Hk. unfold Array_sort.
  apply (Sorted_unique String.le).
  - apply StronglySorted_Sorted, StronglySorted_filter, StronglySorted_merge_sort; apply _.
  - apply Sorted_merge_sort; apply _.
  - rewrite !merge_sort_Permutation. rewrite filter_cons_False by (by intros []).
    rewrite filter_all; [done|]. apply Forall_forall. by intros x Hx ->.
Qed.

(** Members that serialise to nothing can be left out of the key list. *)
Lemma concat_members_without (k : string) (f : string -> list string) (keys : list string) :
  f k = [] ->
  List.concat (List.map f keys) = List.concat (List.map f (filter (fun x => x <> k) keys)).
Proof.
  intros Hk. induction keys as [|x keys IH]; [done|]. simpl.
  rewrite filter_cons. destruct (decide (x <> k)) as [Hx|Hx].
  - simpl. by rewrite IH.
  - apply dec_stable in Hx as ->. by rewrite Hk, IH.
Qed.

Lemma SerializeJSONProperty_primitive (K K' : option (list string)) (v : JsValue) :
  primitive v = true -> SerializeJSONProperty K v = SerializeJSONProperty K' v.
Proof. by destruct v. Qed.

Lemma stable_undefined (k : string) (params : JsObject) :
  NoDup (k :: Object_keys params) -> flat params ->
  stable ((k, JUndefined) :: params) = stable params.
Proof.
  intros Hnd Hflat. pose proof Hnd as Hnd'. apply NoDup_cons in Hnd' as [Hk Hnd0].
  unfold stable, JSON_stringify. simpl.
  rewrite !PropertyList_NoDup by (by apply Array_sort_NoDup).
  assert (Hdone : forall K K',
             List.map (fun kv : string * JsValue =>
                         let (k0, x) := kv in (k0, SerializeJSONProperty K x)) params
             = List.map (fun kv : string * JsValue =>
                         let (k0, x) := kv in (k0, SerializeJSONProperty K' x)) params).
  { intros K K'. apply map_ext_in. intros [k0 x] Hin. f_equal.
    apply SerializeJSONProperty_primitive.
    unfold flat in Hflat. rewrite Forall_forall in Hflat.
    apply (Hflat (k0, x)). by apply list_elem_of_In. }
  rewrite (Hdone _ (Some (Array_sort (Object_keys params)))). do 3 f_equal.
  rewrite (concat_members_without k); [|unfold member; simpl; by rewrite String.eqb_refl].
  fold (Object_keys params). rewrite Array_sort_without by done.
  f_equal. apply map_ext_in. intros x Hx. unfold member. simpl.
  destruct (String.eqb_spec x k) as [->|_]; [|done].
  exfalso. apply Hk. apply list_elem_of_In in Hx. unfold Array_sort in Hx.
  by rewrite merge_sort_Permutation in Hx.
Qed.

(** X15. A parameter whose value is undefined does not enter the key: an
    object with such a property, wherever it was inserted, gets the key of
    the object without it. (So the categories route gives a request without
    an area the key of the parameters [{limit}] alone.) *)
Theorem buildKey_ignores_undefined
    (source endpoint k : string) (params withUndefined : JsObject) :
  NoDup (k :: Object_keys params) -> flat params ->
  withUndefined ≡ₚ (k, JUndefined) :: params ->
  buildKey source endpoint withUndefined = buildKey source endpoint params.
Proof.
  intros Hnd Hflat Hp. unfold buildKey.
  rewrite (stable_Permutation withUndefined ((k, JUndefined) :: params)).
  - by rewrite stable_undefined.
  - assert (Hkeys : Object_keys withUndefined ≡ₚ k :: Object_keys params).
    { unfold Object_keys. by rewrite Hp. }
    by rewrite Hkeys.
  - done.
Qed.

Lemma toInt32_range (z : Z) : - 2 ^ 31 <= toInt32 z < 2 ^ 31.
Proof. unfold toInt32. pose proof (Z.mod_pos_bound (z + 2 ^ 31) (2 ^ 32)). lia. Qed.

Lemma hashLoop_unfold (s : string) (hash : Z) :
  hashLoop s hash = match s with
                    | EmptyString => hash
                    | String c rest => hashLoop rest (hashStep hash c)
                    end.
Proof. unfold hashLoop at 1. destruct s; exact eq_refl. Qed.

Lemma hashLoop_cons (c : ascii) (a : string) (hash : Z) :
  hashLoop (String c a) hash = hashLoop a (hashStep hash c).
Proof. exact (hashLoop_unfold (String c a) hash). Qed.

Lemma hashStep_range (hash : Z) (c : ascii) : - 2 ^ 31 <= hashStep hash c < 2 ^ 31.
Proof. unfold hashStep, bxor. apply toInt32_range. Qed.

Lemma hashLoop_range (a : string) (hash : Z) :
  - 2 ^ 31 <= hash < 2 ^ 31 -> - 2 ^ 31 <= hashLoop a hash < 2 ^ 31.
Proof.
  revert hash. induction a as [|c a IH]; intros hash Hr; [exact Hr|].
  rewrite hashLoop_cons. apply IH, hashStep_range.
Qed.

Lemma hashLoop_app (a b : string) (hash : Z) :
  hashLoop (a ++ b) hash = hashLoop b (hashLoop a hash).
Proof.
  revert hash. induction a as [|c a IH]; intros hash; [reflexivity|].
  change (String c a ++ b) with (String c (a ++ b)).
  rewrite !hashLoop_cons. apply IH.
Qed.

(** X16. The hash is a left fold with a signed 32-bit state: from a start
    in that range it stays in it after every character, the hash of a
    concatenation is the hash of the second part started from the hash of
    the first, and so two texts that hash alike still hash alike after any
    common continuation. *)
Theorem hashLoop_is_a_32_bit_fold (a b c : string) (hash : Z) :
  (- 2 ^ 31 <= hash < 2 ^ 31 -> - 2 ^ 31 <= hashLoop a hash < 2 ^ 31) /\
  hashLoop (a ++ b) hash = hashLoop b (hashLoop a hash) /\
  (hashLoop a hash = hashLoop b hash -> hashLoop (a ++ c) hash = hashLoop (b ++ c) hash).
Proof.
  split; [|split].
  - apply hashLoop_range.
  - apply hashLoop_app.
  - intros Heq. by rewrite !hashLoop_app, Heq.
Qed.
End KeyEdgeFacts.

Lemma buildKey_ignores_undefined_witness :
  CacheService.buildKey (E := Examples.engine) "calgary" "categories" Scenarios.categoriesParams
  = CacheService.buildKey (E := Examples.engine) "calgary" "categories" Scenarios.limitOnly.
Proof.
  apply (buildKey_ignores_undefined (E := Examples.engine) "calgary" "categories" "area"
           Scenarios.limitOnly Scenarios.categoriesParams).
  - compute_done.
  - by repeat constructor.
  - reflexivity.
Defined.

(** ** Keys of the routes *)

Section RouteKeyFacts.
Context {E : JsEngine} {C : Routes.Collaborators}.
Context {A : Type} {DSA : DataSourceAdapter A}.
Import Routes.

Lemma validQuery_key (route : Route) (req : HttpRequest)
    (cacheKey : string) (fetch : M A (list BusinessRecord.t)) :
  validQuery route req = Some (cacheKey, fetch) ->
  exists endpoint params,
    cacheKey = CacheService.buildKey "calgary" endpoint params /\
    endpoint = match route with
               | PublicBusinesses => "bbox"
               | PublicNearby => "nearby"
               | StaffBusinesses => "staff-bbox"
               end.
Proof.
  intros Hvalid. destruct route; simpl in Hvalid.
  - destruct (bboxSchema_safeParse (query req)) as [|d]; [done|].
    injection Hvalid as <- _. by eexists _, _.
  - destruct (nearbySchema_safeParse (query req)) as [|d]; [done|].
    injection Hvalid as <- _. by eexists _, _.
  - destruct (requireStaff req); [done|].
    destruct (staff_bboxSchema_safeParse (query req)) as [|d]; [done|].
    injection Hvalid as <- _. by eexists _, _.
Qed.

(** X17. Two routes never share a cache key: whatever the two requests,
    the key of a request on one route differs from the key of a request on
    another. So what the staff route cached (records with their raw
    payload) is never what a public route reads back, and the two public
    routes do not answer each other's queries, even where the hashes of
    the parameters agree. *)
Theorem routes_never_share_a_key
    (route1 route2 : Route) (req1 req2 : HttpRequest)
    (key1 key2 : string) (fetch1 fetch2 : M A (list BusinessRecord.t)) :
  route1 <> route2 ->
  validQuery route1 req1 = Some (key1, fetch1) ->
  validQuery route2 req2 = Some (key2, fetch2) ->
  key1 <> key2.
Proof.
  intros Hne H1 H2.
  destruct (validQuery_key _ _ _ _ H1) as (e1 & p1 & -> & ->).
  destruct (validQuery_key _ _ _ _ H2) as (e2 & p2 & -> & ->).
  unfold CacheService.buildKey. intros Heq.
  destruct route1, route2; try done; cbv [String.append] in Heq; discriminate Heq.
Qed.
End RouteKeyFacts.

Lemma routes_never_share_a_key_witness :
  Scenarios.downtownKey
  <> CacheService.buildKey (E := Examples.engine) "calgary" "staff-bbox"
       (Routes.bboxParams Examples.downtownData).
Proof.
  eapply (routes_never_share_a_key (E := Examples.engine) (C := Examples.collaborators)
            (DSA := Calgary.Calgary_DataSourceAdapter
                      (E := Examples.engine) (U := Examples.upstreamDown))
            Routes.PublicBusinesses Routes.StaffBusinesses
            Examples.publicRequest Scenarios.staffRequest).
  - discriminate.
  - vm_compute. reflexivity.
  - vm_compute. reflexivity.
Defined.
